(** * The covid19 ETL job (etl.py): chunked transform-and-load, post-load
      duplicate cleanup and the S3 download helper.

    The script is a sequence of pandas, SQL and boto3 calls.  The data
    frames are modelled row by row: a frame is a list of labelled rows,
    a row holds one [cell] per column, and every pandas call of the
    script is a function on such frames that follows what the call does
    to the frame it receives. *)

From Stdlib Require Import ZArith NArith QArith List String Ascii Bool Lia FinFun Sorted.
Import ListNotations.

Local Open Scope Z_scope.
Local Open Scope string_scope.

(** ** Cells of a data frame *)

Module Pandas.

(** What [pd.read_csv] leaves in a cell of a numeric or text column: the
    missing marker, an integer (of an int64 or uint64 column), a finite
    float (the number it denotes), an infinite float, or the text of the
    field, held as its UTF-8 bytes.  Boolean and date columns are not
    covered. *)
Inductive cell : Type :=
  | NaN
  | VInt (z : Z)
  | VFloat (q : Q)
  | VInf (negative : bool)
  | VStr (s : string).

(** [pd.isna] on one cell, the test behind [dropna]. *)
Definition isna (c : cell) : bool :=
  match c with NaN => true | _ => false end.

Definition is_str (c : cell) : bool :=
  match c with VStr _ => true | _ => false end.

(** Equality of two cells as the hash tables behind [drop_duplicates]
    see it: numbers by value (an integer equals the float of the same
    value), text by its characters, missing markers all alike. *)
Definition cell_eqb (a b : cell) : bool :=
  match a, b with
  | NaN, NaN => true
  | VInt x, VInt y => Z.eqb x y
  | VInt x, VFloat q => Qeq_bool (inject_Z x) q
  | VFloat q, VInt y => Qeq_bool q (inject_Z y)
  | VFloat p, VFloat q => Qeq_bool p q
  | VInf m, VInf n => Bool.eqb m n
  | VStr s, VStr t => String.eqb s t
  | _, _ => false
  end.

(** [series == 0] on one cell: only a number of value zero compares
    equal; a missing value and a text (also the text "0") do not. *)
Definition eq_zero (c : cell) : bool :=
  match c with
  | VInt z => Z.eqb z 0
  | VFloat q => Qeq_bool q 0
  | _ => false
  end.

(** [series.str[:4] != '2022'] on one cell of an object column: the
    slice of a text is its first four characters (all of it when it is
    shorter); on anything else the accessor gives the missing marker,
    which is different from every text. *)
Definition str_slice4_ne (year : string) (c : cell) : bool :=
  match c with
  | VStr s => negb (String.eqb (substring 0 4 s) year)
  | _ => true
  end.

(** *** Conversion to int64 *)

Definition int64_min : Z := - 2 ^ 63.
Definition int64_max : Z := 2 ^ 63 - 1.

Definition in_int64 (z : Z) : bool :=
  ((int64_min <=? z) && (z <=? int64_max))%Z.

Definition in_uint64 (z : Z) : bool :=
  ((0 <=? z) && (z <? 2 ^ 64))%Z.

(** Python's [int(text)] for ASCII text: surrounding white space (tab,
    line feed, vertical tab, form feed, carriage return, space) is
    ignored, one sign may lead, the digits are decimal and single
    underscores may separate them. *)
Definition is_space (a : ascii) : bool :=
  let n := nat_of_ascii a in
  ((9 <=? n) && (n <=? 13) || (n =? 32))%nat.

Definition digit_of (a : ascii) : option Z :=
  let n := nat_of_ascii a in
  if ((48 <=? n) && (n <=? 57))%nat then Some (Z.of_nat n - 48) else None.

Fixpoint lstrip (l : list ascii) : list ascii :=
  match l with
  | a :: l' => if is_space a then lstrip l' else l
  | [] => []
  end.

Definition strip (l : list ascii) : list ascii :=
  rev (lstrip (rev (lstrip l))).

Fixpoint digits (acc : Z) (after_digit : bool) (l : list ascii) : option Z :=
  match l with
  | [] => if after_digit then Some acc else None
  | a :: l' =>
      match digit_of a with
      | Some d => digits (10 * acc + d) true l'
      | None =>
          if (Ascii.eqb a "_" && after_digit)%bool
          then digits acc false l' else None
      end
  end.

Definition int_ascii (s : string) : option Z :=
  match strip (list_ascii_of_string s) with
  | "-"%char :: l => option_map Z.opp (digits 0 false l)
  | "+"%char :: l => digits 0 false l
  | l => digits 0 false l
  end.

Definition is_ascii (s : string) : bool :=
  forallb (fun a => (nat_of_ascii a <? 128)%nat) (list_ascii_of_string s).

(** On a text with a character outside ASCII, [int] goes by the Unicode
    tables of the interpreter: which characters are decimal digits and
    which are white space depends on its version.  What [int] makes of
    such a text is taken as given. *)
Class PyUnicode : Type := {
  int_unicode : string -> option Z
}.

Definition py_int `{PyUnicode} (s : string) : option Z :=
  if is_ascii s then int_ascii s else int_unicode s.

(** [series.astype('int64')] on one cell.  An integer of the int64
    range is kept; an integer above it that fits 64 bits sits in a
    uint64 column and is wrapped around, nothing being raised; a finite
    float, which sits in a float64 column, is cut toward zero (nothing
    is raised for a fractional part; out of the 64-bit range the cast is
    the machine's, which on x86-64 gives the least int64); a text goes
    through [int(text)].  A missing or infinite value, a text that [int]
    does not read or reads as a number outside int64, and an integer
    that fits neither 64-bit type are refused: the call raises and
    nothing is converted. *)
Definition to_int64 `{PyUnicode} (c : cell) : option Z :=
  match c with
  | NaN => None
  | VInf _ => None
  | VInt z =>
      if in_int64 z then Some z
      else if in_uint64 z then Some (z - 2 ^ 64)
      else None
  | VFloat q =>
      let t := Z.quot (Qnum q) (Zpos (Qden q)) in
      Some (if in_int64 t then t else int64_min)
  | VStr s =>
      match py_int s with
      | Some z => if in_int64 z then Some z else None
      | None => None
      end
  end.

End Pandas.

Import Pandas.

(** ** The chunked transform and load of Covid19Casos.csv *)

Module Etl.

(** One row of the frame after the column selection and the rename: the
    thirteen columns under their target names. *)
Record case_record : Type := mk_case_record {
  covid_case_csv_id : cell;
  gender_id : cell;
  age : cell;
  symptoms_start_date : cell;
  registration_date : cell;
  death_date : cell;
  respiratory_assistance : cell;
  registration_state_id : cell;
  clasification : cell;
  residence_state_id : cell;
  diagnosis_date : cell;
  residence_department_id : cell;
  last_update : cell
}.

Definition set_age (r : case_record) (a : cell) : case_record :=
  {| covid_case_csv_id := covid_case_csv_id r;
     gender_id := gender_id r;
     age := a;
     symptoms_start_date := symptoms_start_date r;
     registration_date := registration_date r;
     death_date := death_date r;
     respiratory_assistance := respiratory_assistance r;
     registration_state_id := registration_state_id r;
     clasification := clasification r;
     residence_state_id := residence_state_id r;
     diagnosis_date := diagnosis_date r;
     residence_department_id := residence_department_id r;
     last_update := last_update r |}.

(** A chunk as [pd.read_csv(..., chunksize=30000)] yields it: the column
    names of the header, the first label of its range index, and one
    list of cells per line, in file order. *)
Record raw_frame : Type := {
  raw_columns : list string;
  index_start : N;
  raw_values : list (list cell)
}.

(** A labelled row, and the frame the loop body works on.  The frame
    remembers whether its [registration_date] column has the object
    dtype: the in-place drops never change a dtype. *)
Definition row : Type := (N * case_record)%type.

Record frame : Type := {
  date_dtype_object : bool;
  rows : list row
}.

Inductive exn : Type :=
  | AttributeError   (* .str used on a column that holds no text *)
  | ConversionError. (* the ValueError or OverflowError of astype *)

Inductive result (A : Type) : Type :=
  | Ok (a : A)
  | Raise (e : exn).
Arguments Ok {A} a.
Arguments Raise {A} e.

(** The [columns] list of the script. *)
Definition columns : list string :=
  [ "id_evento_caso"; "sexo"; "edad"; "fecha_inicio_sintomas"; "fecha_apertura";
    "fecha_fallecimiento"; "asistencia_respiratoria_mecanica"; "carga_provincia_id";
    "clasificacion_resumen"; "residencia_provincia_id"; "fecha_diagnostico";
    "residencia_departamento_id"; "ultima_actualizacion" ].

Definition year : string := "2022".

Fixpoint position (name : string) (cols : list string) : option nat :=
  match cols with
  | [] => None
  | c :: cols' =>
      if String.eqb c name then Some O
      else option_map S (position name cols')
  end.

(** The cell of a line under a column name; [pd.DataFrame(df, columns=...)]
    fills a column the chunk does not have with the missing marker. *)
Definition raw_get (cols : list string) (line : list cell) (name : string) : cell :=
  match position name cols with
  | Some i => nth i line NaN
  | None => NaN
  end.

(** [pd.DataFrame(df, columns=columns)] followed by [df.rename(...)],
    on one line. *)
Definition select_rename (cols : list string) (line : list cell) : case_record :=
  {| covid_case_csv_id := raw_get cols line "id_evento_caso";
     gender_id := raw_get cols line "sexo";
     age := raw_get cols line "edad";
     symptoms_start_date := raw_get cols line "fecha_inicio_sintomas";
     registration_date := raw_get cols line "fecha_apertura";
     death_date := raw_get cols line "fecha_fallecimiento";
     respiratory_assistance := raw_get cols line "asistencia_respiratoria_mecanica";
     registration_state_id := raw_get cols line "carga_provincia_id";
     clasification := raw_get cols line "clasificacion_resumen";
     residence_state_id := raw_get cols line "residencia_provincia_id";
     diagnosis_date := raw_get cols line "fecha_diagnostico";
     residence_department_id := raw_get cols line "residencia_departamento_id";
     last_update := raw_get cols line "ultima_actualizacion" |}.

(** The labels of a chunk of [n] lines: [RangeIndex(start, start + n)]. *)
Definition range_index (start : N) (n : nat) : list N :=
  map (fun i => (start + N.of_nat i)%N) (seq 0 n).

Definition has_column (name : string) (cols : list string) : bool :=
  match position name cols with
  | Some _ => true
  | None => false
  end.

(** The frame of lines 187-204.  The index of the chunk is kept.  A
    column of a chunk with lines is of object dtype when the chunk holds
    a text in it, of a numeric dtype otherwise (also when it is missing
    everywhere or absent).  In the chunk without lines that a file with
    nothing but its header gives, every column of the file is of object
    dtype; a column the file does not have is filled in as a float
    column. *)
Definition select_rename_frame (df : raw_frame) : frame :=
  let recs := map (select_rename (raw_columns df)) (raw_values df) in
  {| date_dtype_object :=
       match recs with
       | [] => has_column "fecha_apertura" (raw_columns df)
       | _ :: _ => existsb (fun r => is_str (registration_date r)) recs
       end;
     rows := combine (range_index (index_start df) (List.length recs)) recs |}.

(** [df.dropna(subset=[col], inplace=True)]. *)
Definition dropna (col : case_record -> cell) (l : list row) : list row :=
  filter (fun r => negb (isna (col (snd r)))) l.

(** [df[mask].index]: the labels of the rows the mask selects. *)
Definition index_where (mask : case_record -> bool) (l : list row) : list N :=
  map fst (filter (fun r => mask (snd r)) l).

(** [df.drop(labels, inplace=True)]: every row carrying one of the
    labels goes. *)
Definition drop (labels : list N) (l : list row) : list row :=
  filter (fun r => negb (existsb (N.eqb (fst r)) labels)) l.

(** [df.drop_duplicates(subset=['covid_case_csv_id'], inplace=True)]:
    a row goes when an earlier row of the frame has its identifier. *)
Fixpoint drop_duplicates_seen (seen : list cell) (l : list row) : list row :=
  match l with
  | [] => []
  | r :: l' =>
      let k := covid_case_csv_id (snd r) in
      if existsb (cell_eqb k) seen then drop_duplicates_seen seen l'
      else r :: drop_duplicates_seen (k :: seen) l'
  end.

Definition drop_duplicates (l : list row) : list row :=
  drop_duplicates_seen [] l.

(** Whether [series.str] can be taken: the column must be of object
    dtype, and its values must not all be numbers (no value at all, or
    only missing ones, is fine).  Otherwise pandas raises
    AttributeError. *)
Definition str_accessor_ok (object_dtype : bool) (values : list cell) : bool :=
  object_dtype && (forallb isna values || existsb is_str values).

(** Lines 208-220: the five filters of the [try] block, in the order of
    the script. *)
Definition filters (df : frame) : result frame :=
  let r1 := dropna covid_case_csv_id (rows df) in
  if str_accessor_ok (date_dtype_object df) (map (fun r => registration_date (snd r)) r1)
  then
    let r2 := drop (index_where (fun r => str_slice4_ne year (registration_date r)) r1) r1 in
    let r3 := drop_duplicates r2 in
    let r4 := drop (index_where (fun r => eq_zero (registration_state_id r)) r3) r3 in
    let r5 := dropna age r4 in
    Ok {| date_dtype_object := date_dtype_object df; rows := r5 |}
  else Raise AttributeError.

(** Line 223: [df['age'] = df['age'].astype('int64')]; one refused value
    makes the whole call raise. *)
Fixpoint astype_age `{PyUnicode} (l : list row) : option (list row) :=
  match l with
  | [] => Some []
  | r :: l' =>
      match to_int64 (age (snd r)), astype_age l' with
      | Some z, Some l'' => Some ((fst r, set_age (snd r) (VInt z)) :: l'')
      | _, _ => None
      end
  end.

(** The batch a chunk hands to [to_sql], or the exception of the
    [try] block (which [except: raise] passes on). *)
Definition clean `{PyUnicode} (df : raw_frame) : result (list row) :=
  match filters (select_rename_frame df) with
  | Raise e => Raise e
  | Ok df' =>
      match astype_age (rows df') with
      | Some l => Ok l
      | None => Raise ConversionError
      end
  end.

(** [df.to_sql('covid19_case', ..., index=False, if_exists='append')]:
    the rows are appended without their labels.  The table is seen here
    without its surrogate key, and the database is taken to accept every
    batch. *)
Definition to_sql (table : list case_record) (batch : list row) : list case_record :=
  (table ++ map snd batch)%list.

Definition load_chunk `{PyUnicode} (table : list case_record) (df : raw_frame)
  : result (list case_record) :=
  match clean df with
  | Raise e => Raise e
  | Ok batch => Ok (to_sql table batch)
  end.

(** The [for] loop of lines 184-234 over the chunks of the file: the
    table as the loop leaves it, and the exception that ended it, if
    any. *)
Fixpoint run `{PyUnicode} (table : list case_record) (chunks : list raw_frame)
  : list case_record * option exn :=
  match chunks with
  | [] => (table, None)
  | df :: rest =>
      match load_chunk table df with
      | Raise e => (table, Some e)
      | Ok table' => run table' rest
      end
  end.

End Etl.

(** ** The chunk steps as the specification words them

    A second reading of the loop body, on plain records without index
    labels: each step is a selection by a property of the record itself.
    It is compared with [Etl.load_chunk] below. *)

Module Described.
Import Etl.

Definition has_identifier (r : case_record) : bool :=
  negb (isna (covid_case_csv_id r)).

(** The first four characters of the registration date are the target
    year; a missing, shorter or other value does not qualify. *)
Definition in_target_year (r : case_record) : bool :=
  match registration_date r with
  | VStr s => prefix year s
  | _ => false
  end.

(** Of the records sharing an identifier the first in file order stays. *)
Fixpoint keep_first (l : list case_record) : list case_record :=
  match l with
  | [] => []
  | r :: l' =>
      r :: filter (fun x => negb (cell_eqb (covid_case_csv_id x) (covid_case_csv_id r)))
             (keep_first l')
  end.

Definition state_not_zero (r : case_record) : bool :=
  negb (eq_zero (registration_state_id r)).

Definition has_age (r : case_record) : bool :=
  negb (isna (age r)).

Fixpoint coerce_ages `{PyUnicode} (l : list case_record) : option (list case_record) :=
  match l with
  | [] => Some []
  | r :: l' =>
      match to_int64 (age r), coerce_ages l' with
      | Some z, Some l'' => Some (set_age r (VInt z) :: l'')
      | _, _ => None
      end
  end.

Definition selected (df : raw_frame) : list case_record :=
  map (select_rename (raw_columns df)) (raw_values df).

Definition filtered (recs : list case_record) : list case_record :=
  filter has_age
    (filter state_not_zero
       (keep_first
          (filter in_target_year
             (filter has_identifier recs)))).

Definition load_chunk `{PyUnicode} (table : list case_record) (df : raw_frame)
  : result (list case_record) :=
  match coerce_ages (filtered (selected df)) with
  | Some batch => Ok (table ++ batch)%list
  | None => Raise ConversionError
  end.

End Described.

(** ** The post-load cleanup statement (lines 239-248) *)

Module Cleanup.

(** A row of [covid19_case]: the surrogate key the database gives it and
    the columns the load wrote.  A missing cell is stored as NULL. *)
Record db_row : Type := {
  covid_case_id : Z;
  fields : Etl.case_record
}.

Definition csv_id (r : db_row) : cell := Etl.covid_case_csv_id (fields r).

(** [=] of SQL on the identifier: NULL equals nothing. *)
Definition sql_eq (a b : cell) : bool :=
  negb (isna a) && negb (isna b) && cell_eqb a b.

(** The keys of [GROUP BY covid_case_csv_id], each once, in the order of
    their first row; the NULLs form one group. *)
Fixpoint group_keys (seen : list cell) (t : list db_row) : list cell :=
  match t with
  | [] => []
  | r :: t' =>
      if existsb (cell_eqb (csv_id r)) seen then group_keys seen t'
      else csv_id r :: group_keys (csv_id r :: seen) t'
  end.

Definition group (k : cell) (t : list db_row) : list db_row :=
  filter (fun r => cell_eqb (csv_id r) k) t.

(** [MIN(covid_case_id)] over the rows of a group. *)
Fixpoint min_id (m : Z) (g : list db_row) : Z :=
  match g with
  | [] => m
  | r :: g' => min_id (Z.min m (covid_case_id r)) g'
  end.

(** The subquery [b]: for every group of more than one row, its least
    key and its identifier. *)
Definition duplicated_groups (t : list db_row) : list (Z * cell) :=
  flat_map
    (fun k =>
       match group k t with
       | (r :: _ :: _) as g => [(min_id (covid_case_id r) g, k)]
       | _ => []
       end)
    (group_keys [] t).

(** The [WHERE] clause for a row [a] of the table and a row of [b]. *)
Definition joins (a : db_row) (b : Z * cell) : bool :=
  sql_eq (csv_id a) (snd b) && negb (Z.eqb (covid_case_id a) (fst b)).

(** The table after [DELETE FROM covid19_case a USING (...) b WHERE ...]:
    a row goes when it joins with some row of [b]. *)
Definition delete_duplicates (t : list db_row) : list db_row :=
  filter (fun a => negb (existsb (joins a) (duplicated_groups t))) t.

(** The rows a row shares its identifier with (itself among them), and
    the test for a duplicate above the least key: the identifier occurs
    on more than one row and the key is not the least of these rows. *)
Definition same_id_rows (a : db_row) (t : list db_row) : list db_row :=
  filter (fun r => sql_eq (csv_id r) (csv_id a)) t.

Definition duplicate_not_least (t : list db_row) (a : db_row) : bool :=
  (1 <? List.length (same_id_rows a t))%nat
  && negb (Z.eqb (covid_case_id a) (min_id (covid_case_id a) (same_id_rows a t))).

End Cleanup.

(** ** The download helper (lines 35-52) *)

Module Download.

(** The exceptions that matter to [download_from_aws]. *)
Inductive exception : Type :=
  | FileNotFoundError
  | ClientError          (* botocore: the service refused, e.g. 404 *)
  | NoCredentialsError   (* botocore.exceptions.NoCredentialsError *)
  | NameError (name : string)
  | OtherError (class_name : string).

Inductive outcome (A : Type) : Type :=
  | Returns (a : A)
  | Raises (e : exception).
Arguments Returns {A} a.
Arguments Raises {A} e.

(** The names bound in the module when the function is called (lines
    76-78): the imports of lines 2-6, the two functions and the
    assignments of lines 57-73.  No builtin is called
    NoCredentialsError either. *)
Definition module_globals : list string :=
  [ "pd"; "create_engine"; "os"; "zipfile"; "boto3";
    "getParameter"; "download_from_aws";
    "AWS_REGION"; "S3_BUCKET"; "DB_HOST"; "DB_DATABASE"; "DB_USER";
    "DB_PASS"; "DB_PORT"; "session"; "credentials";
    "AWS_ACCESS_KEY_ID"; "AWS_SECRET_ACCESS_KEY"; "AWS_SESSION_TOKEN" ].

Definition bound (name : string) : bool :=
  existsb (String.eqb name) module_globals.

Definition is_FileNotFoundError (e : exception) : bool :=
  match e with FileNotFoundError => true | _ => false end.

Definition is_NoCredentialsError (e : exception) : bool :=
  match e with NoCredentialsError => true | _ => false end.

(** The [try] statement around [s3.download_file], given how that call
    ends.  The [except] clauses are tried in order; the class of a
    clause is looked up by name only when the clause is reached. *)
Definition download_from_aws (download_file : outcome unit) : outcome bool :=
  match download_file with
  | Returns _ => Returns true
  | Raises e =>
      if is_FileNotFoundError e then Returns false
      else if bound "NoCredentialsError" then
        (if is_NoCredentialsError e then Returns false else Raises e)
      else Raises (NameError "NoCredentialsError")
  end.

End Download.

(** ** Properties the statements below speak of *)

Module Props.
Import Etl.

(** No two rows of the list carry the same identifier. *)
Definition distinct_ids (l : list row) : Prop :=
  ForallOrdPairs
    (fun a b => cell_eqb (covid_case_csv_id (snd a)) (covid_case_csv_id (snd b)) = false) l.

(** The rows of a frame that are left when the identifier filter and
    the year filter of the script have run (lines 208 and 211). *)
Definition year_filtered (df : frame) : list row :=
  let r1 := dropna covid_case_csv_id (rows df) in
  drop (index_where (fun r => str_slice4_ne year (registration_date r)) r1) r1.

(** What a record of the target table is expected to satisfy. *)
Definition well_formed (r : case_record) : Prop :=
  isna (covid_case_csv_id r) = false
  /\ (exists z, age r = VInt z /\ int64_min <= z <= int64_max)
  /\ eq_zero (registration_state_id r) = false
  /\ (exists s, registration_date r = VStr s /\ substring 0 4 s = year).



(** Whether the [.str] accessor of line 211 is available on a frame. *)
Definition str_available (df : frame) : bool :=
  str_accessor_ok (date_dtype_object df)
    (map (fun r => registration_date (snd r)) (dropna covid_case_csv_id (rows df))).

(** A registration-date column as [read_csv] types a text column: every
    value is a text or missing, and at least one is a text. *)
Definition text_dates (df : raw_frame) : bool :=
  let dates := map (fun line => raw_get (raw_columns df) line "fecha_apertura")
                   (raw_values df) in
  forallb (fun c => is_str c || isna c) dates && existsb is_str dates.

End Props.

(** ** Sample chunks and tables *)

Module Samples.
Import Etl.

(** A line of a file that has the thirteen columns, in the order of
    [columns]; only the four columns the filters read are filled. *)
Definition line (id a date state : cell) : list cell :=
  [ id; NaN; a; NaN; date; NaN; NaN; state; NaN; NaN; NaN; NaN; NaN ].

Definition chunk (start : N) (lines : list (list cell)) : raw_frame :=
  {| raw_columns := columns; index_start := start; raw_values := lines |}.

(** The record [select_rename] makes of such a line. *)
Definition rec (id a date state : cell) : case_record :=
  {| covid_case_csv_id := id; gender_id := NaN; age := a;
     symptoms_start_date := NaN; registration_date := date; death_date := NaN;
     respiratory_assistance := NaN; registration_state_id := state;
     clasification := NaN; residence_state_id := NaN; diagnosis_date := NaN;
     residence_department_id := NaN; last_update := NaN |}.

(** The five-row chunk of the specification's scenario.  One age is not
    a number, so the age column is text throughout. *)
Definition scenario : raw_frame :=
  chunk 0%N
    [ line (VInt 1) (VStr "45") (VStr "2022-01-01") (VInt 5);
      line (VInt 1) (VStr "50") (VStr "2022-02-01") (VInt 3);
      line (VInt 2) NaN (VStr "2022-01-01") (VInt 1);
      line (VInt 3) (VStr "30") (VStr "2021-12-31") (VInt 2);
      line (VInt 4) (VStr "abc") (VStr "2022-01-01") (VInt 0) ].

(** A last chunk of one line whose registration date is missing: the
    column is numeric (all missing) in this chunk. *)
Definition undated : raw_frame :=
  chunk 30000%N [ line (VInt 7) (VInt 30) NaN (VInt 5) ].

(** A chunk whose ages are all numbers, one of them 4.5: a float column. *)
Definition fractional : raw_frame :=
  chunk 0%N
    [ line (VInt 7) (VFloat (9 # 2)) (VStr "2022-03-01") (VInt 5);
      line (VInt 8) (VFloat (45 # 1)) (VStr "2022-03-02") (VInt 5) ].

(** A chunk with a surviving row whose age is not a number. *)
Definition lettered : raw_frame :=
  chunk 30000%N [ line (VInt 9) (VStr "abc") (VStr "2022-05-01") (VInt 5) ].

Definition later : raw_frame :=
  chunk 60000%N [ line (VInt 10) (VInt 20) (VStr "2022-06-01") (VInt 5) ].

(** A chunk in which one state is no number, so that the state column
    is text throughout; the line with that state is of another year.
    The first line has state 0. *)
Definition text_states : raw_frame :=
  chunk 0%N
    [ line (VInt 1) (VInt 30) (VStr "2022-01-01") (VStr "0");
      line (VInt 2) (VInt 31) (VStr "2021-05-05") (VStr "x") ].

(** A chunk in which identifiers come again. *)
Definition repeated : raw_frame :=
  chunk 0%N
    [ line (VInt 1) (VInt 45) (VStr "2022-01-01") (VInt 5);
      line (VInt 2) (VInt 20) (VStr "2022-01-02") (VInt 3);
      line (VInt 1) (VInt 50) (VStr "2022-02-01") (VInt 3);
      line (VInt 2) (VInt 21) (VStr "2022-02-02") (VInt 4);
      line (VInt 3) (VInt 30) (VStr "2021-12-31") (VInt 2) ].

(** A chunk with an age of a uint64 column. *)
Definition unsigned : raw_frame :=
  chunk 0%N
    [ line (VInt 7) (VInt (2 ^ 63)) (VStr "2022-03-01") (VInt 5) ].

(** The interpreter under which the sample chunks are evaluated.  Their
    texts are ASCII throughout, so its reading of other texts is never
    asked for. *)
Definition sample_interpreter : PyUnicode :=
  {| int_unicode := fun _ => None |}.


(** The table of the cleanup scenario. *)
Definition stored (key : Z) (id : string) : Cleanup.db_row :=
  {| Cleanup.covid_case_id := key;
     Cleanup.fields := rec (VStr id) (VInt 30) (VStr "2022-01-01") (VInt 5) |}.

Definition three_rows : list Cleanup.db_row :=
  [ stored 10 "A"; stored 11 "A"; stored 12 "B" ].

End Samples.

(** ** The two reference tables (lines 103-169) *)

Module Reference.
Import Etl.

(** [df.drop_duplicates(subset=[key], inplace=True)] on any frame: a row
    goes when an earlier row has its key. *)
Fixpoint drop_duplicates_by {A : Type} (key : A -> cell) (seen : list cell)
    (l : list A) : list A :=
  match l with
  | [] => []
  | r :: l' =>
      if existsb (cell_eqb (key r)) seen then drop_duplicates_by key seen l'
      else r :: drop_duplicates_by key (key r :: seen) l'
  end.

(** [series == n] on one cell, for an integer [n]. *)
Definition eq_scalar (n : Z) (c : cell) : bool :=
  match c with
  | VInt z => Z.eqb z n
  | VFloat q => Qeq_bool q (inject_Z n)
  | _ => false
  end.

(** The frames of provincias.csv and departamentos.csv are read in one
    piece, so their index is the range index of the file; the calls of
    lines 110-126 and 146-159 select by position or by a mask over the
    frame itself, and [to_sql] leaves the index out.  The rows are kept
    here without their labels. *)

Module StateTable.

Record state_record : Type := {
  state_id : cell;
  state_name : cell
}.

(** Lines 109-116: the columns [id] and [nombre] under their new names. *)
Definition select_rename (cols : list string) (line : list cell) : state_record :=
  {| state_id := raw_get cols line "id";
     state_name := raw_get cols line "nombre" |}.

(** [df.loc[df['state_id'] == n, 'state_name'] = name]. *)
Definition assign_name (n : Z) (name : string) (l : list state_record)
  : list state_record :=
  map (fun r => if eq_scalar n (state_id r)
                then {| state_id := state_id r; state_name := VStr name |}
                else r) l.

(** Lines 110-126, in the order of the script. *)
Definition transform (df : raw_frame) : list state_record :=
  let d0 := map (select_rename (raw_columns df)) (raw_values df) in
  let d1 := filter (fun r => negb (isna (state_id r))) d0 in
  let d2 := drop_duplicates_by state_id [] d1 in
  let d3 := assign_name 94 "Tierra del Fuego" d2 in
  assign_name 2 "CABA" d3.

(** Lines 130-136. *)
Definition to_sql (table : list state_record) (df : raw_frame) : list state_record :=
  (table ++ transform df)%list.

End StateTable.

Module DepartmentTable.

Record department_record : Type := {
  department_id : cell;
  department_name : cell;
  state_id : cell
}.

(** Lines 145-153. *)
Definition select_rename (cols : list string) (line : list cell) : department_record :=
  {| department_id := raw_get cols line "id";
     department_name := raw_get cols line "nombre";
     state_id := raw_get cols line "provincia_id" |}.

(** Lines 146-159. *)
Definition transform (df : raw_frame) : list department_record :=
  let d0 := map (select_rename (raw_columns df)) (raw_values df) in
  let d1 := filter (fun r => negb (isna (department_id r))) d0 in
  drop_duplicates_by department_id [] d1.

(** Lines 163-169. *)
Definition to_sql (table : list department_record) (df : raw_frame)
  : list department_record :=
  (table ++ transform df)%list.

End DepartmentTable.

End Reference.

(** ** The three downloads of lines 76-78 *)

Module Script.
Import Download.

Definition files : list string :=
  [ "provincias.csv"; "departamentos.csv"; "Covid19Casos.zip" ].

(** The calls of [download_from_aws] one after the other, given how
    [s3.download_file] ends for each object: the objects asked for, and
    how the sequence ends.  The value a call returns is not looked at;
    an exception it raises ends the script. *)
Fixpoint download_each (s3 : string -> outcome unit) (fs : list string)
  : list string * outcome unit :=
  match fs with
  | [] => ([], Returns tt)
  | f :: fs' =>
      match download_from_aws (s3 f) with
      | Returns _ =>
          let (asked, o) := download_each s3 fs' in (f :: asked, o)
      | Raises e => ([f], Raises e)
      end
  end.

Definition download_phase (s3 : string -> outcome unit) : list string * outcome unit :=
  download_each s3 files.

End Script.

(** ** Further properties and samples *)

Module More.
Import Etl.

(** [l1] is [l2] with some elements left out, the order kept. *)
Inductive subseq {A : Type} : list A -> list A -> Prop :=
  | subseq_nil : subseq [] []
  | subseq_skip (x : A) (l1 l2 : list A) : subseq l1 l2 -> subseq l1 (x :: l2)
  | subseq_keep (x : A) (l1 l2 : list A) : subseq l1 l2 -> subseq (x :: l1) (x :: l2).

(** The records a chunk adds to the table, none when its [try] block
    raises. *)
Definition batch_of `{PyUnicode} (df : raw_frame) : list case_record :=
  match clean df with
  | Ok batch => map snd batch
  | Raise _ => []
  end.

Definition loads `{PyUnicode} (df : raw_frame) : bool :=
  match clean df with
  | Ok _ => true
  | Raise _ => false
  end.

(** Records as rows of [covid19_case], under the keys the database
    hands out. *)
Definition store (keys : list Z) (recs : list case_record) : list Cleanup.db_row :=
  map (fun p => {| Cleanup.covid_case_id := fst p; Cleanup.fields := snd p |})
      (combine keys recs).

(** No two rows of the table have the same identifier, for SQL. *)
Definition unique_identifiers (t : list Cleanup.db_row) : Prop :=
  ForallOrdPairs
    (fun a b => Cleanup.sql_eq (Cleanup.csv_id a) (Cleanup.csv_id b) = false) t.

(** The scenario chunk as a file with another column order, an extra
    column, and only the columns the scenario fills. *)
Definition scenario_reordered : raw_frame :=
  {| raw_columns := [ "edad"; "carga_provincia_id"; "comentario";
                      "id_evento_caso"; "fecha_apertura" ];
     index_start := 0%N;
     raw_values :=
       [ [ VStr "45"; VInt 5; VStr "x"; VInt 1; VStr "2022-01-01" ];
         [ VStr "50"; VInt 3; NaN; VInt 1; VStr "2022-02-01" ];
         [ NaN; VInt 1; NaN; VInt 2; VStr "2022-01-01" ];
         [ VStr "30"; VInt 2; NaN; VInt 3; VStr "2021-12-31" ];
         [ VStr "abc"; VInt 0; VStr "y"; VInt 4; VStr "2022-01-01" ] ] |}.

Definition keyed_twice : list Cleanup.db_row :=
  [ Samples.stored 10 "A"; Samples.stored 11 "A";
    Samples.stored 12 "B"; Samples.stored 13 "A" ].

(** A chunk whose first row of identifier 1 is of state 0, followed by
    a row of the same identifier that none of the filters objects to. *)
Definition shadowed : raw_frame :=
  Samples.chunk 0%N
    [ Samples.line (VInt 1) (VInt 30) (VStr "2022-01-01") (VInt 0);
      Samples.line (VInt 1) (VInt 40) (VStr "2022-01-02") (VInt 5);
      Samples.line (VInt 2) (VInt 50) (VStr "2022-01-03") (VInt 5) ].

End More.

(** * Facts *)

Import Etl Props Samples.

(** ** Cells *)

Section CellFacts.
Context {U : PyUnicode}.

Lemma inject_Z_eqb (x y : Z) : Qeq_bool (inject_Z x) (inject_Z y) = Z.eqb x y.
Proof.
  unfold Qeq_bool, inject_Z; simpl. now rewrite !Z.mul_1_r.
Qed.

Lemma cell_eqb_refl (a : cell) : cell_eqb a a = true.
Proof.
  destruct a; simpl.
  - reflexivity.
  - apply Z.eqb_refl.
  - apply Qeq_bool_refl.
  - apply Bool.eqb_reflx.
  - apply String.eqb_refl.
Qed.

Lemma cell_eqb_sym (a b : cell) : cell_eqb a b = cell_eqb b a.
Proof.
  destruct a, b; simpl; try reflexivity.
  - apply Z.eqb_sym.
  - apply Qeq_bool_comm.
  - apply Qeq_bool_comm.
  - apply Qeq_bool_comm.
  - destruct negative, negative0; reflexivity.
  - apply String.eqb_sym.
Qed.

Lemma cell_eqb_trans (a b c : cell) :
  cell_eqb a b = true -> cell_eqb b c = true -> cell_eqb a c = true.
Proof.
  destruct a, b, c; simpl; try discriminate; try reflexivity;
    rewrite <- ?inject_Z_eqb; try apply Qeq_bool_trans.
  - destruct negative, negative0, negative1; simpl; congruence.
  - rewrite !String.eqb_eq. congruence.
Qed.

(** Equal cells are exchangeable on either side of a comparison. *)
Lemma cell_eqb_congr_l (a b c : cell) :
  cell_eqb a b = true -> cell_eqb a c = cell_eqb b c.
Proof.
  intros Hab. destruct (cell_eqb b c) eqn:Hbc.
  - now apply cell_eqb_trans with b.
  - destruct (cell_eqb a c) eqn:Hac; [|reflexivity].
    rewrite <- Hbc. symmetry. apply cell_eqb_trans with a; [|assumption].
    now rewrite cell_eqb_sym.
Qed.

Lemma cell_eqb_isna (a b : cell) :
  cell_eqb a b = true -> isna a = isna b.
Proof. destruct a, b; simpl; congruence. Qed.

Lemma to_int64_range (c : cell) (z : Z) :
  to_int64 c = Some z -> int64_min <= z <= int64_max.
Proof.
  assert (R : forall x, in_int64 x = true -> int64_min <= x <= int64_max).
  { unfold in_int64. intros x H. apply andb_true_iff in H. lia. }
  assert (M : in_int64 int64_min = true) by reflexivity.
  destruct c; simpl; try discriminate.
  - destruct (in_int64 z0) eqn:E; [intros [= <-]; auto|].
    destruct (in_uint64 z0) eqn:E'; [|discriminate]. intros [= <-].
    unfold in_uint64 in E'. unfold in_int64, int64_min, int64_max in E.
    unfold int64_min, int64_max.
    apply andb_true_iff in E'. apply andb_false_iff in E. lia.
  - destruct (in_int64 (Z.quot (Qnum q) (Zpos (Qden q)))) eqn:E;
      intros [= <-]; [auto | apply R, M].
  - destruct (py_int s); [|discriminate].
    destruct (in_int64 z0) eqn:E; [|discriminate]. intros [= <-]. auto.
Qed.

Lemma to_int64_isna (c : cell) (z : Z) : to_int64 c = Some z -> isna c = false.
Proof. destruct c; simpl; congruence. Qed.

(** The slice test of the script and the prefix test say the same. *)
Lemma slice4_prefix (s : string) :
  negb (negb (String.eqb (substring 0 4 s) year)) = prefix year s.
Proof.
  rewrite negb_involutive.
  apply eq_true_iff_eq. rewrite String.eqb_eq.
  symmetry. exact (prefix_correct year s).
Qed.

Example py_int_digits : py_int "45" = Some 45.
Proof. reflexivity. Qed.

Example py_int_sign_space_underscore : py_int " -1_000 " = Some (-1000).
Proof. reflexivity. Qed.

Example py_int_letters : py_int "abc" = None.
Proof. reflexivity. Qed.

Example py_int_decimal_text : py_int "4.5" = None.
Proof. reflexivity. Qed.

Example py_int_trailing_underscore : py_int "45_" = None.
Proof. reflexivity. Qed.

Example to_int64_float_cut : to_int64 (VFloat (9 # 2)) = Some 4.
Proof. reflexivity. Qed.

Example to_int64_negative_float_cut : to_int64 (VFloat (-9 # 2)) = Some (-4).
Proof. reflexivity. Qed.

Example to_int64_too_long : to_int64 (VStr "9223372036854775808") = None.
Proof. reflexivity. Qed.

End CellFacts.

(** ** Frames *)

Section FrameFacts.

Lemma drop_In (labels : list N) (l : list row) (r : row) :
  In r (drop labels l) <-> In r l /\ existsb (N.eqb (fst r)) labels = false.
Proof.
  unfold drop. rewrite filter_In, negb_true_iff. reflexivity.
Qed.

Lemma index_where_In (mask : case_record -> bool) (l : list row) (r : row) :
  In r l -> mask (snd r) = true ->
  existsb (N.eqb (fst r)) (index_where mask l) = true.
Proof.
  intros Hin Hm. apply existsb_exists. exists (fst r). split.
  - unfold index_where. apply in_map, filter_In. auto.
  - apply N.eqb_refl.
Qed.

(** After [df.drop(df[mask].index)] no row of the frame satisfies the
    mask, whatever the labels are. *)
Lemma drop_index_where_mask (mask : case_record -> bool) (l : list row) (r : row) :
  In r (drop (index_where mask l) l) -> mask (snd r) = false.
Proof.
  intros H. apply drop_In in H. destruct H as [Hin Hex].
  destruct (mask (snd r)) eqn:Hm; [|reflexivity].
  rewrite (index_where_In mask l r Hin Hm) in Hex. discriminate.
Qed.

Lemma index_where_none (mask : case_record -> bool) (l : list row) :
  (forall r, In r l -> mask (snd r) = false) -> index_where mask l = [].
Proof.
  intros H. unfold index_where.
  induction l as [|a l IH]; simpl; [reflexivity|].
  rewrite (H a (or_introl eq_refl)). apply IH. intros r Hr. apply H. now right.
Qed.

Lemma drop_no_label (l : list row) : drop [] l = l.
Proof.
  unfold drop. apply forallb_filter_id. apply forallb_forall. reflexivity.
Qed.

Lemma drop_index_where_fixed (mask : case_record -> bool) (l : list row) :
  (forall r, In r l -> mask (snd r) = false) ->
  drop (index_where mask l) l = l.
Proof.
  intros H. rewrite (index_where_none mask l H). apply drop_no_label.
Qed.

Lemma unique_label (l : list row) (r r' : row) :
  NoDup (map fst l) -> In r l -> In r' l -> fst r = fst r' -> r = r'.
Proof.
  induction l as [|a l IH]; simpl; [tauto|].
  intros Hnd [Ha|Hr] [Ha'|Hr'] Heq; inversion Hnd as [|? ? Hnotin Hnd']; subst.
  - reflexivity.
  - exfalso. apply Hnotin. rewrite Heq. now apply in_map.
  - exfalso. apply Hnotin. rewrite <- Heq. now apply in_map.
  - now apply IH.
Qed.

(** With one row per label, dropping by label is selecting by the mask. *)
Lemma drop_index_where_filter (mask : case_record -> bool) (l : list row) :
  NoDup (map fst l) ->
  drop (index_where mask l) l = filter (fun r => negb (mask (snd r))) l.
Proof.
  intros Hnd. unfold drop. apply filter_ext_in. intros r Hr. f_equal.
  destruct (mask (snd r)) eqn:Hm.
  - now apply index_where_In.
  - destruct (existsb _ _) eqn:Hex; [|reflexivity].
    apply existsb_exists in Hex. destruct Hex as [n [Hn Hrn]].
    apply N.eqb_eq in Hrn. unfold index_where in Hn.
    apply in_map_iff in Hn. destruct Hn as [r' [Hfst Hr']].
    apply filter_In in Hr'. destruct Hr' as [Hr' Hm'].
    assert (r = r') by (apply (unique_label l); auto; congruence).
    subst r'. congruence.
Qed.

Lemma NoDup_labels_filter (f : row -> bool) (l : list row) :
  NoDup (map fst l) -> NoDup (map fst (filter f l)).
Proof.
  induction l as [|a l IH]; simpl; [auto|].
  intros Hnd. inversion Hnd as [|? ? Hnotin Hnd']; subst.
  destruct (f a); simpl; [|auto].
  constructor; [|auto].
  intros Hin. apply Hnotin. apply in_map_iff in Hin.
  destruct Hin as [x [Hx Hin]]. apply filter_In in Hin.
  apply in_map_iff. exists x. tauto.
Qed.

Lemma distinct_ids_filter (f : row -> bool) (l : list row) :
  distinct_ids l -> distinct_ids (filter f l).
Proof.
  unfold distinct_ids. induction 1 as [|a l Ha Hl IH]; simpl.
  - constructor.
  - destruct (f a); [|assumption]. constructor; [|assumption].
    apply Forall_forall. intros x Hx. apply filter_In in Hx.
    rewrite Forall_forall in Ha. apply Ha. tauto.
Qed.

End FrameFacts.

(** ** drop_duplicates *)

Section DedupFacts.

Lemma seen_false_inv (k s : cell) (seen : list cell) :
  existsb (cell_eqb k) (s :: seen) = false ->
  cell_eqb k s = false /\ existsb (cell_eqb k) seen = false.
Proof. simpl. intros H. now apply orb_false_iff in H. Qed.

Lemma seen_congr (a b : cell) (seen : list cell) :
  cell_eqb a b = true -> existsb (cell_eqb a) seen = existsb (cell_eqb b) seen.
Proof.
  intros H. induction seen as [|s seen IH]; simpl; [reflexivity|].
  now rewrite IH, (cell_eqb_congr_l a b s H).
Qed.

Lemma dedup_unseen (seen : list cell) (l : list row) (r : row) :
  In r (drop_duplicates_seen seen l) ->
  existsb (cell_eqb (covid_case_csv_id (snd r))) seen = false.
Proof.
  revert seen. induction l as [|a l IH]; simpl; intros seen H; [tauto|].
  destruct (existsb (cell_eqb (covid_case_csv_id (snd a))) seen) eqn:E.
  - now apply IH.
  - destruct H as [<-|H]; [assumption|].
    apply IH in H. now apply seen_false_inv in H.
Qed.

Lemma dedup_incl (seen : list cell) (l : list row) (r : row) :
  In r (drop_duplicates_seen seen l) -> In r l.
Proof.
  revert seen. induction l as [|a l IH]; simpl; intros seen H; [tauto|].
  destruct (existsb _ seen).
  - right. eapply IH, H.
  - destruct H as [H|H]; [now left | right; eapply IH, H].
Qed.

Lemma dedup_distinct (seen : list cell) (l : list row) :
  distinct_ids (drop_duplicates_seen seen l).
Proof.
  unfold distinct_ids.
  revert seen. induction l as [|a l IH]; simpl; intros seen; [constructor|].
  destruct (existsb _ seen); [apply IH|].
  constructor; [|apply IH].
  apply Forall_forall. intros x Hx. apply dedup_unseen in Hx.
  apply seen_false_inv in Hx. rewrite cell_eqb_sym. tauto.
Qed.

(** A frame without repeated identifiers passes unchanged. *)
Lemma dedup_fixed (seen : list cell) (l : list row) :
  distinct_ids l ->
  Forall (fun r => existsb (cell_eqb (covid_case_csv_id (snd r))) seen = false) l ->
  drop_duplicates_seen seen l = l.
Proof.
  unfold distinct_ids. intros Hd. revert seen.
  induction Hd as [|a l Ha Hl IH]; simpl; intros seen Hs; [reflexivity|].
  inversion Hs as [|? ? Hsa Hsl]; subst. rewrite Hsa. f_equal.
  apply IH. rewrite Forall_forall in *. intros x Hx. simpl.
  rewrite (Hsl x Hx), cell_eqb_sym, (Ha x Hx). reflexivity.
Qed.

(** A row that stays is the first of the frame with its identifier. *)
Lemma dedup_first (seen : list cell) (l : list row) (r : row) :
  In r (drop_duplicates_seen seen l) ->
  exists pre post,
    l = (pre ++ r :: post)%list
    /\ Forall (fun x => cell_eqb (covid_case_csv_id (snd x))
                                 (covid_case_csv_id (snd r)) = false) pre.
Proof.
  revert seen. induction l as [|a l IH]; simpl; intros seen H; [tauto|].
  destruct (existsb (cell_eqb (covid_case_csv_id (snd a))) seen) eqn:E.
  - pose proof (dedup_unseen _ _ _ H) as Hr.
    destruct (IH _ H) as [pre [post [-> Hpre]]].
    exists (a :: pre), post. split; [reflexivity|].
    constructor; [|assumption].
    destruct (cell_eqb (covid_case_csv_id (snd a)) (covid_case_csv_id (snd r))) eqn:Ear;
      [|reflexivity].
    rewrite (seen_congr _ _ seen Ear) in E. congruence.
  - destruct H as [<-|H].
    + exists [], l. split; [reflexivity | constructor].
    + pose proof (dedup_unseen _ _ _ H) as Hr. apply seen_false_inv in Hr.
      destruct (IH _ H) as [pre [post [-> Hpre]]].
      exists (a :: pre), post. split; [reflexivity|].
      constructor; [|assumption]. rewrite cell_eqb_sym. tauto.
Qed.

Lemma NoDup_labels_dedup (seen : list cell) (l : list row) :
  NoDup (map fst l) -> NoDup (map fst (drop_duplicates_seen seen l)).
Proof.
  revert seen. induction l as [|a l IH]; simpl; intros seen Hnd; [auto|].
  inversion Hnd as [|? ? Hnotin Hnd']; subst.
  destruct (existsb _ seen); simpl; [auto|].
  constructor; [|auto].
  intros Hin. apply Hnotin. apply in_map_iff in Hin.
  destruct Hin as [x [Hx Hin]]. apply dedup_incl in Hin.
  apply in_map_iff. exists x. tauto.
Qed.

End DedupFacts.

(** ** astype *)

Section AstypeFacts.
Context {U : PyUnicode}.

Lemma astype_age_In (l out : list row) (o : row) :
  astype_age l = Some out -> In o out ->
  exists r z, In r l /\ to_int64 (age (snd r)) = Some z
              /\ o = (fst r, set_age (snd r) (VInt z)).
Proof.
  revert out. induction l as [|a l IH]; simpl; intros out H Hin.
  - injection H as <-. destruct Hin.
  - destruct (to_int64 (age (snd a))) as [z|] eqn:Ez; [|discriminate].
    destruct (astype_age l) as [l'|]; [|discriminate].
    injection H as <-. destruct Hin as [<-|Hin].
    + exists a, z. auto.
    + destruct (IH l' eq_refl Hin) as [r [z' [Hr [Hz Ho]]]].
      exists r, z'. auto.
Qed.


Lemma astype_age_accepted (l : list row) :
  Forall (fun r => to_int64 (age (snd r)) <> None) l ->
  exists out, astype_age l = Some out.
Proof.
  induction 1 as [|a l Ha Hl [out IH]]; simpl.
  - now exists [].
  - destruct (to_int64 (age (snd a))) as [z|]; [|congruence].
    rewrite IH. eauto.
Qed.

(** The conversion keeps the identifiers, row by row. *)
Lemma astype_age_distinct (l out : list row) :
  astype_age l = Some out -> distinct_ids l -> distinct_ids out.
Proof.
  unfold distinct_ids. intros H Hd. revert out H.
  induction Hd as [|a l Ha Hl IH]; simpl; intros out H.
  - injection H as <-. constructor.
  - destruct (to_int64 (age (snd a))) as [z|]; [|discriminate].
    destruct (astype_age l) as [l'|] eqn:El; [|discriminate].
    injection H as <-. constructor; [|now apply IH].
    apply Forall_forall. intros o Ho.
    destruct (astype_age_In l l' o El Ho) as [r [z' [Hr [_ ->]]]].
    rewrite Forall_forall in Ha. simpl. now apply Ha.
Qed.

End AstypeFacts.

(** ** The loop body *)

Section LoopFacts.
Context {U : PyUnicode}.

Lemma filters_Ok (df df' : frame) :
  filters df = Ok df' ->
  str_accessor_ok (date_dtype_object df)
    (map (fun r => registration_date (snd r)) (dropna covid_case_csv_id (rows df))) = true
  /\ date_dtype_object df' = date_dtype_object df
  /\ rows df' =
       dropna age
         (drop (index_where (fun r => eq_zero (registration_state_id r))
                  (drop_duplicates (year_filtered df)))
            (drop_duplicates (year_filtered df))).
Proof.
  unfold filters, year_filtered.
  destruct (str_accessor_ok _ _); [|discriminate].
  intros [= <-]. simpl. auto.
Qed.

Lemma filters_Raise (df : frame) (e : exn) :
  filters df = Raise e -> e = AttributeError.
Proof.
  unfold filters. destruct (str_accessor_ok _ _); congruence.
Qed.

Lemma year_filtered_sound (df : frame) (r : row) :
  In r (year_filtered df) ->
  In r (rows df)
  /\ isna (covid_case_csv_id (snd r)) = false
  /\ str_slice4_ne year (registration_date (snd r)) = false.
Proof.
  unfold year_filtered. intros H.
  pose proof (drop_index_where_mask _ _ _ H) as Hy.
  apply drop_In in H. destruct H as [H _].
  unfold dropna in H. apply filter_In in H. destruct H as [H Hid].
  apply negb_true_iff in Hid. auto.
Qed.

(** Every row the filters leave has passed each of the five tests. *)
Lemma filters_sound (df df' : frame) (r : row) :
  filters df = Ok df' -> In r (rows df') ->
  In r (drop_duplicates (year_filtered df))
  /\ isna (covid_case_csv_id (snd r)) = false
  /\ str_slice4_ne year (registration_date (snd r)) = false
  /\ eq_zero (registration_state_id (snd r)) = false
  /\ isna (age (snd r)) = false.
Proof.
  intros Hf Hin. apply filters_Ok in Hf. destruct Hf as [_ [_ Hrows]].
  rewrite Hrows in Hin. unfold dropna in Hin.
  apply filter_In in Hin. destruct Hin as [Hin Hage].
  apply negb_true_iff in Hage.
  pose proof (drop_index_where_mask _ _ _ Hin) as Hz.
  apply drop_In in Hin. destruct Hin as [Hin _].
  pose proof (dedup_incl _ _ _ Hin) as Hy.
  apply year_filtered_sound in Hy. tauto.
Qed.

Lemma filters_distinct (df df' : frame) :
  filters df = Ok df' -> distinct_ids (rows df').
Proof.
  intros Hf. apply filters_Ok in Hf. destruct Hf as [_ [_ ->]].
  unfold dropna, drop. do 2 apply distinct_ids_filter.
  apply dedup_distinct.
Qed.

Lemma slice4_text (c : cell) :
  str_slice4_ne year c = false ->
  exists s, c = VStr s /\ substring 0 4 s = year.
Proof.
  destruct c; simpl; try discriminate.
  intros H. apply negb_false_iff, String.eqb_eq in H. eauto.
Qed.

Lemma clean_Ok (df : raw_frame) (batch : list row) :
  clean df = Ok batch ->
  exists df', filters (select_rename_frame df) = Ok df'
              /\ astype_age (rows df') = Some batch.
Proof.
  unfold clean. destruct (filters _) as [df'|e]; [|discriminate].
  destruct (astype_age _) as [l|] eqn:E; [|discriminate].
  intros [= <-]. eauto.
Qed.

Lemma clean_well_formed (df : raw_frame) (batch : list row) :
  clean df = Ok batch -> Forall well_formed (map snd batch).
Proof.
  intros H. apply clean_Ok in H. destruct H as [df' [Hf Ha]].
  apply Forall_forall. intros rec Hrec.
  apply in_map_iff in Hrec. destruct Hrec as [o [<- Ho]].
  destruct (astype_age_In _ _ _ Ha Ho) as [r [z [Hr [Hz ->]]]].
  destruct (filters_sound _ _ _ Hf Hr) as [_ [Hid [Hy [Hs _]]]].
  destruct (slice4_text _ Hy) as [s [Hd Hp]].
  unfold well_formed; simpl. repeat split; try assumption.
  - exists z. split; [reflexivity|]. eapply to_int64_range, Hz.
  - eauto.
Qed.

End LoopFacts.

(** Whatever the chunks are and however the loop ends, what it has
    added to the covid19_case table are records with an identifier, an
    age that is a 64-bit integer, a registration state that the test of
    line 217 does not take for 0, and a registration date starting with
    the target year 2022. *)
Lemma appended_records_pass_the_tests {U : PyUnicode} (table : list case_record) (chunks : list raw_frame) :
  exists appended,
    fst (run table chunks) = (table ++ appended)%list
    /\ Forall well_formed appended.
Proof.
  revert table. induction chunks as [|df rest IH]; intros table; simpl.
  - exists []. split; [now rewrite app_nil_r | constructor].
  - unfold load_chunk. destruct (clean df) as [batch|e] eqn:E; simpl.
    + destruct (IH (to_sql table batch)) as [more [Hrun Hwf]].
      exists (map snd batch ++ more)%list. split.
      * rewrite Hrun. unfold to_sql. now rewrite app_assoc.
      * apply Forall_app. split; [|assumption].
        now apply clean_well_formed with df.
    + exists []. split; [now rewrite app_nil_r | constructor].
Qed.

(** C7: the five filters applied to a frame they have produced give that
    frame back. *)
Theorem filters_idempotent (df df' : frame) :
  filters df = Ok df' -> filters df' = Ok df'.
Proof.
  intros Hf.
  assert (Hall : forall r, In r (rows df') ->
            isna (covid_case_csv_id (snd r)) = false
            /\ str_slice4_ne year (registration_date (snd r)) = false
            /\ eq_zero (registration_state_id (snd r)) = false
            /\ isna (age (snd r)) = false).
  { intros r Hr. destruct (filters_sound _ _ _ Hf Hr). tauto. }
  pose proof (filters_distinct _ _ Hf) as Hd.
  destruct (filters_Ok _ _ Hf) as [Hstr [Hdt _]].
  assert (Hobj : date_dtype_object df' = true).
  { rewrite Hdt. unfold str_accessor_ok in Hstr.
    now apply andb_true_iff in Hstr. }
  assert (H1 : dropna covid_case_csv_id (rows df') = rows df').
  { unfold dropna. apply forallb_filter_id, forallb_forall.
    intros r Hr. apply negb_true_iff. now apply Hall. }
  assert (H5 : dropna age (rows df') = rows df').
  { unfold dropna. apply forallb_filter_id, forallb_forall.
    intros r Hr. apply negb_true_iff. now apply Hall. }
  assert (H2 : year_filtered df' = rows df').
  { unfold year_filtered. rewrite H1. apply drop_index_where_fixed.
    intros r Hr. now apply Hall. }
  assert (H3 : drop_duplicates (rows df') = rows df').
  { apply dedup_fixed; [assumption|]. apply Forall_forall. reflexivity. }
  assert (Hok : str_accessor_ok (date_dtype_object df')
                  (map (fun r => registration_date (snd r)) (rows df')) = true).
  { unfold str_accessor_ok. rewrite Hobj. simpl.
    destruct (rows df') as [|r l] eqn:El; [reflexivity|].
    apply orb_true_iff. right. simpl.
    destruct (slice4_text (registration_date (snd r))) as [s [-> _]].
    - apply Hall. now left.
    - reflexivity. }
  unfold filters. fold (year_filtered df'). rewrite H1, Hok, H2, H3.
  rewrite drop_index_where_fixed by (intros r Hr; now apply Hall).
  rewrite H5. destruct df'; reflexivity.
Qed.

Lemma filters_idempotent_witness :
  filters (select_rename_frame scenario)
  = Ok {| date_dtype_object := true;
          rows := [(0%N, rec (VInt 1) (VStr "45") (VStr "2022-01-01") (VInt 5))] |}
  /\ filters {| date_dtype_object := true;
                rows := [(0%N, rec (VInt 1) (VStr "45") (VStr "2022-01-01") (VInt 5))] |}
     = Ok {| date_dtype_object := true;
             rows := [(0%N, rec (VInt 1) (VStr "45") (VStr "2022-01-01") (VInt 5))] |}.
Proof.
  assert (H : filters (select_rename_frame scenario)
              = Ok {| date_dtype_object := true;
                      rows := [(0%N, rec (VInt 1) (VStr "45") (VStr "2022-01-01") (VInt 5))] |})
    by reflexivity.
  split; [exact H | exact (filters_idempotent _ _ H)].
Defined.

(** ** The loop body against its description *)

Section Refinement.
Context {U : PyUnicode}.

Lemma filter_andb {A : Type} (f g : A -> bool) (l : list A) :
  filter f (filter g l) = filter (fun x => f x && g x) l.
Proof.
  induction l as [|a l IH]; simpl; [reflexivity|].
  destruct (g a); simpl; rewrite ?andb_true_r, ?andb_false_r;
    [destruct (f a)|]; now rewrite IH.
Qed.

Lemma map_snd_filter (f : case_record -> bool) (l : list row) :
  map snd (filter (fun r => f (snd r)) l) = filter f (map snd l).
Proof.
  induction l as [|a l IH]; simpl; [reflexivity|].
  destruct (f (snd a)); simpl; now rewrite IH.
Qed.

Lemma select_rename_frame_rows (df : raw_frame) :
  map snd (rows (select_rename_frame df)) = Described.selected df
  /\ NoDup (map fst (rows (select_rename_frame df))).
Proof.
  unfold select_rename_frame, Described.selected. simpl.
  set (recs := map (select_rename (raw_columns df)) (raw_values df)).
  assert (H : forall (l : list case_record) (labels : list N),
            List.length labels = List.length l ->
            map snd (combine labels l) = l /\ map fst (combine labels l) = labels).
  { induction l as [|a l IH]; intros [|n labels]; simpl; try discriminate; auto.
    intros [= Hlen]. destruct (IH labels Hlen) as [-> ->]. auto. }
  destruct (H recs (range_index (index_start df) (List.length recs))) as [-> ->].
  - unfold range_index. now rewrite length_map, length_seq.
  - split; [reflexivity|]. unfold range_index.
    apply Injective_map_NoDup; [|apply seq_NoDup].
    intros i j Hij. lia.
Qed.

Lemma year_mask_described (r : case_record) :
  negb (str_slice4_ne year (registration_date r)) = Described.in_target_year r.
Proof.
  unfold Described.in_target_year, str_slice4_ne.
  destruct (registration_date r); try reflexivity. apply slice4_prefix.
Qed.

(** [drop_duplicates] and "the first of each identifier stays". *)
Lemma dedup_keep_first (seen : list cell) (l : list row) :
  map snd (drop_duplicates_seen seen l) =
  filter (fun x => negb (existsb (cell_eqb (covid_case_csv_id x)) seen))
         (Described.keep_first (map snd l)).
Proof.
  revert seen. induction l as [|a l IH]; intros seen; simpl; [reflexivity|].
  destruct (existsb (cell_eqb (covid_case_csv_id (snd a))) seen) eqn:E; simpl.
  - rewrite IH, filter_andb. apply filter_ext_in. intros x _.
    destruct (existsb (cell_eqb (covid_case_csv_id x)) seen) eqn:Ex; simpl;
      [reflexivity|].
    destruct (cell_eqb (covid_case_csv_id x) (covid_case_csv_id (snd a))) eqn:Exa;
      [|reflexivity].
    rewrite (seen_congr _ _ seen Exa) in Ex. congruence.
  - f_equal. rewrite IH, filter_andb. apply filter_ext. intros x. simpl.
    rewrite negb_orb. apply andb_comm.
Qed.

Lemma astype_coerce (l : list row) :
  option_map (map snd) (astype_age l) = Described.coerce_ages (map snd l).
Proof.
  induction l as [|a l IH]; simpl; [reflexivity|].
  rewrite <- IH. destruct (to_int64 (age (snd a))); [|reflexivity].
  destruct (astype_age l); reflexivity.
Qed.

Lemma filters_described (df df' : frame) :
  NoDup (map fst (rows df)) ->
  filters df = Ok df' ->
  map snd (rows df') = Described.filtered (map snd (rows df)).
Proof.
  intros Hnd Hf. destruct (filters_Ok _ _ Hf) as [_ [_ ->]].
  unfold Described.filtered, year_filtered, drop_duplicates, dropna.
  set (r1 := filter (fun r => negb (isna (covid_case_csv_id (snd r)))) (rows df)).
  assert (N1 : NoDup (map fst r1)) by now apply NoDup_labels_filter.
  rewrite (drop_index_where_filter _ r1 N1).
  set (r2 := filter _ r1).
  assert (N2 : NoDup (map fst r2)) by now apply NoDup_labels_filter.
  set (r3 := drop_duplicates_seen [] r2).
  assert (N3 : NoDup (map fst r3)) by now apply NoDup_labels_dedup.
  rewrite (drop_index_where_filter _ r3 N3).
  rewrite (map_snd_filter (fun x => negb (isna (age x)))).
  rewrite (map_snd_filter (fun x => negb (eq_zero (registration_state_id x)))).
  unfold r3. rewrite dedup_keep_first.
  rewrite (filter_ext (fun x => negb (existsb (cell_eqb (covid_case_csv_id x)) []))
                      (fun _ => true)) by reflexivity.
  rewrite filter_true.
  unfold r2.
  rewrite (map_snd_filter (fun x => negb (str_slice4_ne year (registration_date x)))).
  rewrite (filter_ext (fun x => negb (str_slice4_ne year (registration_date x)))
                      Described.in_target_year) by (intros x; apply year_mask_described).
  unfold r1.
  rewrite (map_snd_filter (fun x => negb (isna (covid_case_csv_id x)))).
  reflexivity.
Qed.

Lemma filters_available (df : frame) :
  str_available df = true -> exists df', filters df = Ok df'.
Proof.
  unfold str_available, filters. intros ->. eauto.
Qed.

Lemma filters_unavailable (df : frame) :
  str_available df = false -> filters df = Raise AttributeError.
Proof.
  unfold str_available, filters. now intros ->.
Qed.

(** When the accessor is available the loop body does what the
    description says, step by step. *)
Lemma load_chunk_described (table : list case_record) (df : raw_frame) :
  str_available (select_rename_frame df) = true ->
  Etl.load_chunk table df = Described.load_chunk table df.
Proof.
  intros Hs. destruct (filters_available _ Hs) as [df' Hf].
  destruct (select_rename_frame_rows df) as [Hsel Hnd].
  pose proof (filters_described _ _ Hnd Hf) as Hrows. rewrite Hsel in Hrows.
  unfold Etl.load_chunk, Described.load_chunk, clean. rewrite Hf, <- Hrows.
  rewrite <- astype_coerce.
  destruct (astype_age (rows df')); reflexivity.
Qed.

(** A text column always offers the accessor. *)
Lemma text_dates_available (df : raw_frame) :
  text_dates df = true -> str_available (select_rename_frame df) = true.
Proof.
  unfold text_dates, str_available, str_accessor_ok. intros H.
  apply andb_true_iff in H. destruct H as [Hall Hex].
  destruct (select_rename_frame_rows df) as [Hsel _].
  apply andb_true_iff. split.
  - assert (Hex' : existsb (fun r => is_str (registration_date r))
                      (map (select_rename (raw_columns df)) (raw_values df)) = true).
    { rewrite existsb_exists in *. destruct Hex as [c [Hc Hstr]].
      apply in_map_iff in Hc. destruct Hc as [line [<- Hline]].
      exists (select_rename (raw_columns df) line).
      split; [now apply in_map | exact Hstr]. }
    unfold select_rename_frame; simpl.
    destruct (map (select_rename (raw_columns df)) (raw_values df));
      [discriminate | exact Hex'].
  - set (r1 := dropna covid_case_csv_id (rows (select_rename_frame df))).
    assert (Htxt : forall r, In r r1 ->
              is_str (registration_date (snd r)) || isna (registration_date (snd r)) = true).
    { intros r Hr. unfold r1, dropna in Hr. apply filter_In in Hr. destruct Hr as [Hr _].
      apply (in_map snd) in Hr. rewrite Hsel in Hr. unfold Described.selected in Hr.
      apply in_map_iff in Hr. destruct Hr as [line [<- Hline]].
      rewrite forallb_forall in Hall. apply Hall.
      apply in_map_iff. exists line. auto. }
    clearbody r1. induction r1 as [|a l IH]; simpl; [reflexivity|].
    assert (Ha := Htxt a (or_introl eq_refl)).
    destruct (is_str (registration_date (snd a))) eqn:Es; simpl.
    + apply orb_true_r.
    + simpl in Ha. rewrite Ha. simpl.
      assert (IH' := IH (fun r Hr => Htxt r (or_intror Hr))).
      apply orb_true_iff in IH'. apply orb_true_iff. tauto.
Qed.

End Refinement.

(** ** First occurrences *)

Section FirstKept.
Context {U : PyUnicode}.

Lemma dedup_keeps_first (seen : list cell) (pre post : list row) (r : row) :
  existsb (cell_eqb (covid_case_csv_id (snd r))) seen = false ->
  Forall (fun x => cell_eqb (covid_case_csv_id (snd x))
                            (covid_case_csv_id (snd r)) = false) pre ->
  In r (drop_duplicates_seen seen (pre ++ r :: post)).
Proof.
  revert seen. induction pre as [|a pre IH]; intros seen Hs Hpre; simpl.
  - rewrite Hs. now left.
  - inversion Hpre as [|? ? Ha Hpre']; subst.
    destruct (existsb (cell_eqb (covid_case_csv_id (snd a))) seen).
    + now apply IH.
    + right. apply IH; [|assumption]. simpl.
      now rewrite cell_eqb_sym, Ha, Hs.
Qed.

Lemma drop_keeps (mask : case_record -> bool) (l : list row) (r : row) :
  NoDup (map fst l) -> In r l -> mask (snd r) = false ->
  In r (drop (index_where mask l) l).
Proof.
  intros Hnd Hin Hm. rewrite (drop_index_where_filter mask l Hnd).
  apply filter_In. split; [exact Hin | now rewrite Hm].
Qed.

Lemma year_filtered_labels (df : frame) :
  NoDup (map fst (rows df)) -> NoDup (map fst (year_filtered df)).
Proof.
  intros Hnd. unfold year_filtered, drop, dropna.
  now do 2 apply NoDup_labels_filter.
Qed.

Lemma astype_age_complete (l out : list row) (r : row) :
  astype_age l = Some out -> In r l ->
  exists z, to_int64 (age (snd r)) = Some z
            /\ In (fst r, set_age (snd r) (VInt z)) out.
Proof.
  revert out. induction l as [|a l IH]; simpl; intros out H Hin; [tauto|].
  destruct (to_int64 (age (snd a))) as [z|] eqn:Ez; [|discriminate].
  destruct (astype_age l) as [l'|]; [|discriminate].
  injection H as <-. destruct Hin as [->|Hin].
  - exists z. split; [exact Ez | now left].
  - destruct (IH l' eq_refl Hin) as [z' [Hz' Hin']].
    exists z'. split; [exact Hz' | now right].
Qed.

(** A first occurrence that the later filters let pass is in the frame
    the conversion receives. *)
Lemma first_occurrence_passes (df df' : frame) (pre post : list row) (r : row) :
  NoDup (map fst (rows df)) ->
  filters df = Ok df' ->
  year_filtered df = (pre ++ r :: post)%list ->
  Forall (fun x => cell_eqb (covid_case_csv_id (snd x))
                            (covid_case_csv_id (snd r)) = false) pre ->
  eq_zero (registration_state_id (snd r)) = false ->
  isna (age (snd r)) = false ->
  In r (rows df').
Proof.
  intros Hnd Hf Hy Hpre Hz Hage.
  destruct (filters_Ok _ _ Hf) as [_ [_ ->]].
  unfold dropna. apply filter_In. split; [|now rewrite Hage].
  apply drop_keeps; [| |exact Hz].
  - unfold drop_duplicates. apply NoDup_labels_dedup.
    now apply year_filtered_labels.
  - unfold drop_duplicates. rewrite Hy. now apply dedup_keeps_first.
Qed.

End FirstKept.

(** C2: the batch a chunk sends to the table holds no identifier twice.
    Each of its records comes from the first row with its identifier
    among the rows left by the identifier and year filters; and every
    such first row is kept: when the state and age filters let it pass,
    its record is in the batch. *)
Theorem batch_identifiers_unique_first_kept {U : PyUnicode}
    (df : raw_frame) (batch : list row) :
  clean df = Ok batch ->
  distinct_ids batch
  /\ (forall o, In o batch ->
        exists pre r post,
          year_filtered (select_rename_frame df) = (pre ++ r :: post)%list
          /\ Forall (fun x => cell_eqb (covid_case_csv_id (snd x))
                                       (covid_case_csv_id (snd r)) = false) pre
          /\ fst o = fst r
          /\ snd o = set_age (snd r) (age (snd o)))
  /\ (forall pre r post,
        year_filtered (select_rename_frame df) = (pre ++ r :: post)%list ->
        Forall (fun x => cell_eqb (covid_case_csv_id (snd x))
                                  (covid_case_csv_id (snd r)) = false) pre ->
        eq_zero (registration_state_id (snd r)) = false ->
        isna (age (snd r)) = false ->
        exists z,
          to_int64 (age (snd r)) = Some z
          /\ In (fst r, set_age (snd r) (VInt z)) batch).
Proof.
  intros H. apply clean_Ok in H. destruct H as [df' [Hf Ha]].
  split; [|split].
  - eapply astype_age_distinct; [exact Ha|].
    now apply filters_distinct with (select_rename_frame df).
  - intros o Ho.
    destruct (astype_age_In _ _ _ Ha Ho) as [r [z [Hr [Hz ->]]]].
    destruct (filters_sound _ _ _ Hf Hr) as [Hd _].
    destruct (dedup_first _ _ _ Hd) as [pre [post [Heq Hpre]]].
    exists pre, r, post. simpl. auto.
  - intros pre r post Hy Hpre Hz Hage.
    apply (astype_age_complete _ _ r Ha).
    destruct (select_rename_frame_rows df) as [_ Hnd].
    now apply (first_occurrence_passes _ _ pre post r Hnd Hf).
Qed.

(** ** The run over the chunks *)

Section RunFacts.
Context {U : PyUnicode}.






Lemma filters_incl (df df' : frame) (r : row) :
  filters df = Ok df' -> In r (rows df') -> In r (rows df).
Proof.
  intros Hf Hr. destruct (filters_sound _ _ _ Hf Hr) as [Hd _].
  apply dedup_incl, year_filtered_sound in Hd. tauto.
Qed.

End RunFacts.



(** X18: on a chunk whose registration dates offer
    the text accessor, the loop body selects and renames the thirteen
    columns, drops the rows without identifier, keeps the rows whose
    date starts with the target year, keeps the first row of each
    identifier, drops the rows of state 0, drops the rows without age,
    converts the ages and appends the batch, in this order. *)
Theorem load_chunk_follows_description {U : PyUnicode} (table : list case_record) (df : raw_frame) :
  str_available (select_rename_frame df) = true ->
  Etl.load_chunk table df = Described.load_chunk table df.
Proof.
  apply load_chunk_described.
Qed.

(** X19: on a chunk whose registration dates offer
    the text accessor, only the rows that pass the filters reach the
    conversion; when each of their ages converts, the chunk is appended
    without error, whatever the ages on the other rows are.  In the
    scenario chunk the row with age "abc" and state 0 goes quietly. *)
Theorem dropped_rows_never_converted {U : PyUnicode} (table : list case_record) (df : raw_frame) :
  str_available (select_rename_frame df) = true ->
  (forall r, In r (Described.filtered (Described.selected df)) ->
             to_int64 (age r) <> None) ->
  (exists batch,
      Etl.load_chunk table df = Ok (table ++ batch)%list
      /\ Described.coerce_ages (Described.filtered (Described.selected df)) = Some batch)
  /\ Etl.load_chunk [] scenario
     = Ok [rec (VInt 1) (VInt 45) (VStr "2022-01-01") (VInt 5)].
Proof.
  intros Hs Hages. split; [|reflexivity].
  rewrite (load_chunk_described table df Hs). unfold Described.load_chunk.
  induction (Described.filtered (Described.selected df)) as [|a l IH]; simpl.
  - exists []. auto.
  - destruct (to_int64 (age a)) as [z|] eqn:Ez.
    + destruct IH as [batch [Hb Hc]].
      { intros r Hr. apply Hages. now right. }
      rewrite Hc. eauto.
    + exfalso. apply (Hages a); [now left | exact Ez].
Qed.

(** ** The cleanup statement *)

Section CleanupFacts.
Import Cleanup.

Lemma cell_eqb_congr_r (a b c : cell) :
  cell_eqb a b = true -> cell_eqb c a = cell_eqb c b.
Proof.
  intros H. rewrite (cell_eqb_sym c a), (cell_eqb_sym c b).
  now apply cell_eqb_congr_l.
Qed.

Lemma sql_eq_null (a b : cell) : isna b = true -> sql_eq a b = false.
Proof.
  unfold sql_eq. intros ->. simpl. now rewrite andb_false_r.
Qed.

Lemma sql_eq_cell_eqb (a b : cell) :
  isna b = false -> sql_eq a b = cell_eqb a b.
Proof.
  unfold sql_eq. intros Hb. rewrite Hb. simpl. rewrite andb_true_r.
  destruct (cell_eqb a b) eqn:E; [|apply andb_false_r].
  rewrite (cell_eqb_isna _ _ E), Hb. reflexivity.
Qed.

Lemma group_keys_complete (seen : list cell) (t : list db_row) (a : db_row) :
  In a t ->
  existsb (cell_eqb (csv_id a)) seen = true
  \/ existsb (cell_eqb (csv_id a)) (group_keys seen t) = true.
Proof.
  revert seen. induction t as [|r t IH]; simpl; intros seen Hin; [tauto|].
  destruct (existsb (cell_eqb (csv_id r)) seen) eqn:E.
  - destruct Hin as [->|Hin]; [now left | now apply IH].
  - simpl. destruct Hin as [->|Hin].
    + right. now rewrite cell_eqb_refl.
    + destruct (IH (csv_id r :: seen) Hin) as [H|H].
      * simpl in H. apply orb_true_iff in H. destruct H as [H|H].
        -- right. now rewrite H.
        -- now left.
      * right. rewrite H. apply orb_true_r.
Qed.

Lemma group_same_id_rows (k : cell) (t : list db_row) (a : db_row) :
  isna (csv_id a) = false -> cell_eqb (csv_id a) k = true ->
  group k t = same_id_rows a t.
Proof.
  intros Hna Hk. unfold group, same_id_rows. apply filter_ext. intros r.
  rewrite (sql_eq_cell_eqb _ _ Hna). symmetry. now apply cell_eqb_congr_r.
Qed.

Lemma min_id_le (m : Z) (g : list db_row) :
  min_id m g <= m /\ Forall (fun r => min_id m g <= covid_case_id r) g.
Proof.
  revert m. induction g as [|r g IH]; intros m; simpl.
  - split; [lia | constructor].
  - destruct (IH (Z.min m (covid_case_id r))) as [H1 H2]. split; [lia|].
    constructor; [lia | exact H2].
Qed.

Lemma min_id_attained (m : Z) (g : list db_row) :
  min_id m g = m \/ exists r, In r g /\ min_id m g = covid_case_id r.
Proof.
  revert m. induction g as [|r g IH]; intros m; simpl; [now left|].
  destruct (IH (Z.min m (covid_case_id r))) as [H|[x [Hx H]]].
  - rewrite H. destruct (Z.min_spec m (covid_case_id r)) as [[_ ->]|[_ ->]].
    + now left.
    + right. exists r. auto.
  - right. exists x. auto.
Qed.

Lemma min_id_least (m : Z) (g : list db_row) :
  min_id m g = m <-> Forall (fun r => m <= covid_case_id r) g.
Proof.
  destruct (min_id_le m g) as [Hle Hall]. split.
  - intros H. now rewrite H in Hall.
  - intros H. destruct (min_id_attained m g) as [E|[r [Hr E]]]; [exact E|].
    rewrite Forall_forall in H. specialize (H r Hr). lia.
Qed.

Lemma min_id_same (g : list db_row) (r1 r2 : db_row) :
  In r1 g -> In r2 g ->
  min_id (covid_case_id r1) g = min_id (covid_case_id r2) g.
Proof.
  intros H1 H2.
  destruct (min_id_le (covid_case_id r1) g) as [_ L1].
  destruct (min_id_le (covid_case_id r2) g) as [_ L2].
  rewrite Forall_forall in L1, L2.
  assert (A1 : exists x, In x g /\ min_id (covid_case_id r1) g = covid_case_id x).
  { destruct (min_id_attained (covid_case_id r1) g) as [E|E]; eauto. }
  assert (A2 : exists x, In x g /\ min_id (covid_case_id r2) g = covid_case_id x).
  { destruct (min_id_attained (covid_case_id r2) g) as [E|E]; eauto. }
  destruct A1 as [x1 [Hx1 E1]]. destruct A2 as [x2 [Hx2 E2]].
  pose proof (L1 x2 Hx2). pose proof (L2 x1 Hx1). lia.
Qed.

Lemma existsb_flat_map {A B : Type} (p : B -> bool) (f : A -> list B) (l : list A) :
  existsb p (flat_map f l) = existsb (fun x => existsb p (f x)) l.
Proof.
  induction l as [|a l IH]; simpl; [reflexivity|].
  now rewrite existsb_app, IH.
Qed.

Lemma existsb_pointwise {A : Type} (p q : A -> bool) (l : list A) :
  (forall x, p x = q x) -> existsb p l = existsb q l.
Proof.
  intros H. induction l as [|a l IH]; simpl; [reflexivity|].
  now rewrite H, IH.
Qed.

Lemma existsb_andb_r {A : Type} (c : A -> bool) (d : bool) (l : list A) :
  existsb (fun x => c x && d) l = existsb c l && d.
Proof.
  induction l as [|a l IH]; simpl; [reflexivity|].
  rewrite IH. destruct (c a), (existsb c l), d; reflexivity.
Qed.

(** What the join of a row with the subquery comes to. *)
Lemma joined_iff_duplicate_not_least (t : list db_row) (a : db_row) :
  In a t ->
  existsb (joins a) (duplicated_groups t) = duplicate_not_least t a.
Proof.
  intros Hin. unfold duplicated_groups. rewrite existsb_flat_map.
  destruct (isna (csv_id a)) eqn:Hna.
  - (* a NULL identifier joins with nothing and shares with nothing *)
    assert (Hnil : same_id_rows a t = []).
    { unfold same_id_rows. rewrite (filter_ext _ (fun _ => false)).
      - apply filter_false.
      - intros r. now apply sql_eq_null. }
    unfold duplicate_not_least. rewrite Hnil. simpl.
    induction (group_keys [] t) as [|k ks IH]; simpl; [reflexivity|].
    rewrite IH, orb_false_r.
    assert (Hj : forall b, joins a b = false).
    { intros b. unfold joins, sql_eq. now rewrite Hna. }
    destruct (group k t) as [|r [|r' g]]; simpl; rewrite ?Hj; reflexivity.
  - rewrite (existsb_pointwise _ (fun k => cell_eqb (csv_id a) k && duplicate_not_least t a)).
    + rewrite existsb_andb_r.
      destruct (group_keys_complete [] t a Hin) as [H|H]; [discriminate|].
      now rewrite H.
    + intros k. destruct (cell_eqb (csv_id a) k) eqn:Hk; simpl.
      * rewrite (group_same_id_rows k t a Hna Hk). unfold duplicate_not_least.
        assert (Ha : In a (same_id_rows a t)).
        { unfold same_id_rows. apply filter_In. split; [exact Hin|].
          rewrite (sql_eq_cell_eqb _ _ Hna). apply cell_eqb_refl. }
        destruct (same_id_rows a t) as [|r [|r' g]] eqn:Eg; try reflexivity.
        assert (Hnk : isna k = false) by (rewrite <- (cell_eqb_isna _ _ Hk); exact Hna).
        assert (Hr : In r (r :: r' :: g)) by now left.
        change (existsb (joins a) [(min_id (covid_case_id r) (r :: r' :: g), k)]
                = (1 <? List.length (r :: r' :: g))%nat
                  && negb (Z.eqb (covid_case_id a)
                             (min_id (covid_case_id a) (r :: r' :: g)))).
        rewrite (min_id_same (r :: r' :: g) r a Hr Ha).
        set (m := min_id (covid_case_id a) (r :: r' :: g)).
        simpl. rewrite orb_false_r. unfold joins. simpl.
        rewrite (sql_eq_cell_eqb _ _ Hnk), Hk. reflexivity.
      * assert (Hj : forall m, joins a (m, k) = false).
        { intros m. unfold joins, sql_eq. simpl. rewrite Hk.
          now rewrite andb_false_r. }
        destruct (group k t) as [|r [|r' g]]; simpl; rewrite ?Hj; reflexivity.
Qed.

Lemma delete_duplicates_filter (t : list db_row) :
  delete_duplicates t = filter (fun a => negb (duplicate_not_least t a)) t.
Proof.
  unfold delete_duplicates. apply filter_ext_in. intros a Ha.
  now rewrite joined_iff_duplicate_not_least.
Qed.

Lemma same_id_rows_filter (f : db_row -> bool) (a : db_row) (t : list db_row) :
  same_id_rows a (filter f t) = filter f (same_id_rows a t).
Proof.
  unfold same_id_rows. rewrite !filter_andb. apply filter_ext.
  intros r. apply andb_comm.
Qed.

Lemma filter_length_bound {A : Type} (f : A -> bool) (l : list A) :
  (List.length (filter f l) <= List.length l)%nat.
Proof.
  induction l as [|a l IH]; simpl; [lia|]. destruct (f a); simpl; lia.
Qed.

(** A row that stays is still no duplicate above the least in any
    selection of the table. *)
Lemma duplicate_not_least_filter (f : db_row -> bool) (t : list db_row) (a : db_row) :
  duplicate_not_least t a = false -> duplicate_not_least (filter f t) a = false.
Proof.
  unfold duplicate_not_least. rewrite same_id_rows_filter.
  intros H. apply andb_false_iff in H. apply andb_false_iff.
  destruct H as [H|H].
  - left. apply Nat.ltb_ge in H. apply Nat.ltb_ge.
    pose proof (filter_length_bound f (same_id_rows a t)). lia.
  - right. apply negb_false_iff, Z.eqb_eq in H. apply negb_false_iff, Z.eqb_eq.
    symmetry in H. apply min_id_least in H. symmetry. apply min_id_least.
    rewrite Forall_forall in *. intros r Hr. apply H.
    apply filter_In in Hr. tauto.
Qed.

(** In other words: a row is removed exactly when some row with its
    identifier has a smaller key. *)
Lemma duplicate_not_least_false (t : list db_row) (a : db_row) :
  In a t ->
  duplicate_not_least t a = false
  <-> (forall r, In r t -> sql_eq (csv_id r) (csv_id a) = true ->
                 covid_case_id a <= covid_case_id r).
Proof.
  intros Hin. unfold duplicate_not_least. split.
  - intros H r Hr Hra.
    assert (Hrs : In r (same_id_rows a t)) by (apply filter_In; auto).
    assert (Has : In a (same_id_rows a t)).
    { apply filter_In. split; [exact Hin|].
      destruct (isna (csv_id a)) eqn:Hna.
      - now rewrite (sql_eq_null _ _ Hna) in Hra.
      - rewrite (sql_eq_cell_eqb _ _ Hna). apply cell_eqb_refl. }
    apply andb_false_iff in H. destruct H as [H|H].
    + apply Nat.ltb_ge in H.
      destruct (same_id_rows a t) as [|x [|y l]]; simpl in *; try lia; try tauto.
      destruct Hrs as [<-|[]]. destruct Has as [<-|[]]. lia.
    + apply negb_false_iff, Z.eqb_eq in H. symmetry in H.
      apply min_id_least in H. rewrite Forall_forall in H. now apply H.
  - intros H. apply andb_false_iff. right.
    apply negb_false_iff, Z.eqb_eq. symmetry. apply min_id_least.
    apply Forall_forall. intros r Hr. apply filter_In in Hr.
    apply H; tauto.
Qed.

End CleanupFacts.

(** C5: the statement removes the rows whose identifier is on more than
    one row and whose key is not the least among these rows, and no
    other; of the rows (10, A), (11, A), (12, B) it removes (11, A). *)
Theorem cleanup_deletes_duplicates_above_least (t : list Cleanup.db_row) :
  Cleanup.delete_duplicates t
  = filter (fun a => negb (Cleanup.duplicate_not_least t a)) t
  /\ (forall a, In a (Cleanup.delete_duplicates t) <->
                In a t
                /\ forall r, In r t ->
                     Cleanup.sql_eq (Cleanup.csv_id r) (Cleanup.csv_id a) = true ->
                     Cleanup.covid_case_id a <= Cleanup.covid_case_id r)
  /\ Cleanup.delete_duplicates three_rows = [ stored 10 "A"; stored 12 "B" ].
Proof.
  split; [apply delete_duplicates_filter|]. split; [|reflexivity].
  intros a. rewrite delete_duplicates_filter, filter_In, negb_true_iff.
  split; intros [Hin H]; (split; [exact Hin|]);
    now apply (duplicate_not_least_false t a Hin).
Qed.

(** C8: run on the table it has left, the statement removes nothing. *)
Theorem cleanup_idempotent (t : list Cleanup.db_row) :
  Cleanup.delete_duplicates (Cleanup.delete_duplicates t)
  = Cleanup.delete_duplicates t.
Proof.
  rewrite (delete_duplicates_filter (Cleanup.delete_duplicates t)).
  apply forallb_filter_id, forallb_forall. intros a Ha.
  apply negb_true_iff.
  rewrite delete_duplicates_filter in *.
  apply duplicate_not_least_filter.
  apply filter_In in Ha. destruct Ha as [_ Ha]. now apply negb_true_iff in Ha.
Qed.

(** ** The download helper *)

(** C10: a finished download gives True and a FileNotFoundError gives
    False; but the name NoCredentialsError is bound nowhere in the
    module, so any other exception of the download, the missing
    credentials among them, ends in a NameError instead of False. *)
Theorem download_handler_unbound :
  Download.download_from_aws (Download.Returns tt) = Download.Returns true
  /\ Download.download_from_aws (Download.Raises Download.FileNotFoundError)
     = Download.Returns false
  /\ Download.download_from_aws (Download.Raises Download.NoCredentialsError)
     = Download.Raises (Download.NameError "NoCredentialsError")
  /\ Download.download_from_aws (Download.Raises Download.ClientError)
     = Download.Raises (Download.NameError "NoCredentialsError").
Proof.
  repeat split.
Qed.

(** * Further facts *)

Import Reference More.

(** ** Sequences with elements left out *)

Section SubseqFacts.
Context {A : Type}.

Lemma subseq_refl (l : list A) : subseq l l.
Proof. induction l; constructor; assumption. Qed.

Lemma subseq_filter (f : A -> bool) (l : list A) : subseq (filter f l) l.
Proof.
  induction l as [|a l IH]; simpl; [constructor|].
  destruct (f a); constructor; assumption.
Qed.

Lemma subseq_trans (l1 l2 l3 : list A) :
  subseq l1 l2 -> subseq l2 l3 -> subseq l1 l3.
Proof.
  intros H12 H23. revert l1 H12.
  induction H23 as [|x l2 l3 H IH|x l2 l3 H IH]; intros l1 H12.
  - exact H12.
  - constructor. now apply IH.
  - inversion H12; subst; constructor; now apply IH.
Qed.

Lemma subseq_In (l1 l2 : list A) (x : A) : subseq l1 l2 -> In x l1 -> In x l2.
Proof.
  induction 1; simpl; intros Hx; [tauto | right; auto |].
  destruct Hx; [now left | right; auto].
Qed.

Lemma subseq_length (l1 l2 : list A) :
  subseq l1 l2 -> (List.length l1 <= List.length l2)%nat.
Proof. induction 1; simpl; lia. Qed.

Lemma subseq_map {B : Type} (f : A -> B) (l1 l2 : list A) :
  subseq l1 l2 -> subseq (map f l1) (map f l2).
Proof. induction 1; simpl; constructor; assumption. Qed.

Lemma subseq_NoDup (l1 l2 : list A) : subseq l1 l2 -> NoDup l2 -> NoDup l1.
Proof.
  induction 1 as [|x l1 l2 H IH|x l1 l2 H IH]; intros Hnd.
  - constructor.
  - inversion Hnd; auto.
  - inversion Hnd as [|? ? Hx Hnd']; subst. constructor; [|auto].
    intros Hin. apply Hx. now apply (subseq_In l1 l2).
Qed.

End SubseqFacts.

(** ** drop_duplicates on any frame *)

Section KeyedDedup.
Context {A : Type} (key : A -> cell).

Lemma dedup_by_unseen (seen : list cell) (l : list A) (r : A) :
  In r (drop_duplicates_by key seen l) ->
  existsb (cell_eqb (key r)) seen = false.
Proof.
  revert seen. induction l as [|a l IH]; simpl; intros seen H; [tauto|].
  destruct (existsb (cell_eqb (key a)) seen) eqn:E.
  - now apply IH.
  - destruct H as [<-|H]; [assumption|].
    apply IH in H. now apply seen_false_inv in H.
Qed.

Lemma dedup_by_subseq (seen : list cell) (l : list A) :
  subseq (drop_duplicates_by key seen l) l.
Proof.
  revert seen. induction l as [|a l IH]; simpl; intros seen; [constructor|].
  destruct (existsb _ seen); constructor; apply IH.
Qed.

Lemma dedup_by_distinct (seen : list cell) (l : list A) :
  ForallOrdPairs (fun a b => cell_eqb (key a) (key b) = false)
    (drop_duplicates_by key seen l).
Proof.
  revert seen. induction l as [|a l IH]; simpl; intros seen; [constructor|].
  destruct (existsb _ seen); [apply IH|].
  constructor; [|apply IH].
  apply Forall_forall. intros x Hx. apply dedup_by_unseen in Hx.
  apply seen_false_inv in Hx. rewrite cell_eqb_sym. tauto.
Qed.

(** Every key of the frame is still there: the row that carried it
    first stays. *)
Lemma dedup_by_covers (seen : list cell) (l : list A) (r : A) :
  In r l ->
  existsb (cell_eqb (key r)) seen = true
  \/ exists r', In r' (drop_duplicates_by key seen l)
                /\ cell_eqb (key r) (key r') = true.
Proof.
  revert seen. induction l as [|a l IH]; simpl; intros seen Hin; [tauto|].
  destruct (existsb (cell_eqb (key a)) seen) eqn:E.
  - destruct Hin as [->|Hin]; [now left | now apply IH].
  - destruct Hin as [->|Hin].
    + right. exists r. split; [now left | apply cell_eqb_refl].
    + destruct (IH (key a :: seen) Hin) as [H|[r' [Hr' Heq]]].
      * simpl in H. apply orb_true_iff in H. destruct H as [H|H].
        -- right. exists a. split; [now left | exact H].
        -- now left.
      * right. exists r'. split; [now right | exact Heq].
Qed.

Lemma dedup_by_fixed (seen : list cell) (l : list A) :
  ForallOrdPairs (fun a b => cell_eqb (key a) (key b) = false) l ->
  Forall (fun r => existsb (cell_eqb (key r)) seen = false) l ->
  drop_duplicates_by key seen l = l.
Proof.
  intros Hd. revert seen.
  induction Hd as [|a l Ha Hl IH]; simpl; intros seen Hs; [reflexivity|].
  inversion Hs as [|? ? Hsa Hsl]; subst. rewrite Hsa. f_equal.
  apply IH. rewrite Forall_forall in *. intros x Hx. simpl.
  rewrite (Hsl x Hx), cell_eqb_sym, (Ha x Hx). reflexivity.
Qed.

End KeyedDedup.

Lemma drop_duplicates_seen_by (seen : list cell) (l : list row) :
  drop_duplicates_seen seen l
  = drop_duplicates_by (fun r => covid_case_csv_id (snd r)) seen l.
Proof.
  revert seen. induction l as [|a l IH]; simpl; intros seen; [reflexivity|].
  rewrite !IH. reflexivity.
Qed.

(** ** More on the loop *)

Section LoopMore.
Context {U : PyUnicode}.

Lemma filters_subseq (df df' : frame) :
  filters df = Ok df' -> subseq (rows df') (rows df).
Proof.
  intros Hf. destruct (filters_Ok _ _ Hf) as [_ [_ ->]].
  unfold dropna, drop, year_filtered, drop_duplicates, dropna, drop.
  eapply subseq_trans; [apply subseq_filter|].
  eapply subseq_trans; [apply subseq_filter|].
  rewrite drop_duplicates_seen_by.
  eapply subseq_trans; [apply dedup_by_subseq|].
  eapply subseq_trans; [apply subseq_filter|].
  apply subseq_filter.
Qed.

Lemma astype_age_labels (l out : list row) :
  astype_age l = Some out -> map fst out = map fst l.
Proof.
  revert out. induction l as [|a l IH]; simpl; intros out H.
  - now injection H as <-.
  - destruct (to_int64 (age (snd a))); [|discriminate].
    destruct (astype_age l) as [l'|]; [|discriminate].
    injection H as <-. simpl. now rewrite (IH l' eq_refl).
Qed.

Lemma select_rename_frame_labels (df : raw_frame) :
  map fst (rows (select_rename_frame df))
  = range_index (index_start df) (List.length (raw_values df)).
Proof.
  unfold select_rename_frame. simpl. rewrite length_map.
  set (recs := map (select_rename (raw_columns df)) (raw_values df)).
  assert (Hlen : List.length (range_index (index_start df) (List.length (raw_values df)))
                 = List.length recs).
  { unfold range_index, recs. now rewrite !length_map, length_seq. }
  revert Hlen. generalize (range_index (index_start df) (List.length (raw_values df))).
  induction recs as [|a l IH]; intros [|n labels]; simpl; try discriminate; auto.
  intros [= Hlen]. now rewrite IH.
Qed.

(** A row of the frame is the line at its label. *)
Lemma combine_range_In {B C : Type} (g : B -> C) (f : nat -> N)
    (lines : list B) (s : nat) (lab : N) (rec : C) :
  In (lab, rec) (combine (map f (seq s (List.length lines))) (map g lines)) ->
  exists i line,
    nth_error lines i = Some line /\ lab = f (s + i)%nat /\ rec = g line.
Proof.
  revert s. induction lines as [|a lines IH]; simpl; intros s H; [tauto|].
  destruct H as [H|H].
  - injection H as <- <-. exists O, a. rewrite Nat.add_0_r. auto.
  - destruct (IH (S s) H) as [i [line [Hn [Hl Hr]]]].
    exists (S i), line. rewrite Nat.add_succ_r. auto.
Qed.

Lemma select_rename_frame_In (df : raw_frame) (r : row) :
  In r (rows (select_rename_frame df)) ->
  exists i line,
    nth_error (raw_values df) i = Some line
    /\ fst r = (index_start df + N.of_nat i)%N
    /\ snd r = select_rename (raw_columns df) line.
Proof.
  unfold select_rename_frame, range_index. simpl. rewrite length_map.
  destruct r as [lab rec]. intros H.
  destruct (combine_range_In (select_rename (raw_columns df))
              (fun i => (index_start df + N.of_nat i)%N) _ O lab rec H)
    as [i [line [Hn [Hl Hr]]]].
  exists i, line. simpl. auto.
Qed.

Lemma set_age_twice (r : case_record) (a b : cell) :
  set_age (set_age r a) b = set_age r b.
Proof. reflexivity. Qed.

Lemma to_int64_int (c : cell) (z : Z) :
  to_int64 c = Some z -> to_int64 (VInt z) = Some z.
Proof.
  intros H. apply to_int64_range in H. simpl.
  unfold in_int64. destruct H as [H1 H2].
  apply Z.leb_le in H1. apply Z.leb_le in H2. now rewrite H1, H2.
Qed.

Lemma select_rename_by_name (cols1 cols2 : list string) (l1 l2 : list cell) :
  (forall c, In c columns -> raw_get cols1 l1 c = raw_get cols2 l2 c) ->
  select_rename cols1 l1 = select_rename cols2 l2.
Proof.
  intros H. unfold select_rename.
  rewrite !(H _) by (unfold columns; simpl; tauto).
  reflexivity.
Qed.

End LoopMore.

(** X1: the chunks are loaded one by one and independently.  The table
    after the loop is the table before it followed by the batches of the
    chunks up to the first one whose [try] block raises; that chunk adds
    nothing, its exception ends the loop, and without such a chunk every
    batch is there and the loop ends normally. *)
Theorem run_concatenates_batches {U : PyUnicode} (table : list case_record) (chunks : list raw_frame) :
  exists loaded rest,
    chunks = (loaded ++ rest)%list
    /\ Forall (fun df => loads df = true) loaded
    /\ fst (run table chunks) = (table ++ flat_map batch_of loaded)%list
    /\ match rest with
       | [] => snd (run table chunks) = None
       | df :: _ => exists e, clean df = Raise e /\ snd (run table chunks) = Some e
       end.
Proof.
  revert table. induction chunks as [|df chunks IH]; intros table; simpl.
  - exists [], []. simpl. rewrite app_nil_r.
    split; [reflexivity|]. split; [constructor|]. split; reflexivity.
  - unfold Etl.load_chunk. destruct (clean df) as [batch|e] eqn:E.
    + destruct (IH (to_sql table batch)) as [loaded [rest [-> [Hl [Hf Hr]]]]].
      exists (df :: loaded), rest. split; [reflexivity|]. split.
      * constructor; [|exact Hl]. unfold loads. now rewrite E.
      * split; [|exact Hr]. rewrite Hf. simpl. unfold batch_of at 2, to_sql.
        rewrite E. now rewrite app_assoc.
    + exists [], (df :: chunks). simpl. rewrite app_nil_r.
      split; [reflexivity|]. split; [constructor|]. split; [reflexivity|].
      exists e. split; [exact E | reflexivity].
Qed.

(** X2: the rows of a batch come in file order.  Their labels are labels
    of the chunk's range index with some left out, none occurs twice,
    and the batch is not longer than the chunk. *)
Theorem batch_keeps_file_order {U : PyUnicode} (df : raw_frame) (batch : list row) :
  clean df = Ok batch ->
  subseq (map fst batch) (range_index (index_start df) (List.length (raw_values df)))
  /\ NoDup (map fst batch)
  /\ (List.length batch <= List.length (raw_values df))%nat.
Proof.
  intros H. apply clean_Ok in H. destruct H as [df' [Hf Ha]].
  assert (Hs : subseq (map fst batch)
                 (range_index (index_start df) (List.length (raw_values df)))).
  { rewrite (astype_age_labels _ _ Ha), <- select_rename_frame_labels.
    apply subseq_map. now apply filters_subseq. }
  split; [exact Hs|]. split.
  - apply (subseq_NoDup _ _ Hs). rewrite <- select_rename_frame_labels.
    apply select_rename_frame_rows.
  - apply subseq_length in Hs. unfold range_index in Hs.
    now rewrite !length_map, length_seq in Hs.
Qed.

(** X3: every row of a batch is the line of the chunk at its label,
    under the target names, with nothing changed but the age, which is
    the int64 the conversion makes of the line's age. *)
Theorem batch_row_is_its_line {U : PyUnicode} (df : raw_frame) (batch : list row) (o : row) :
  clean df = Ok batch -> In o batch ->
  exists i line z,
    nth_error (raw_values df) i = Some line
    /\ fst o = (index_start df + N.of_nat i)%N
    /\ to_int64 (age (select_rename (raw_columns df) line)) = Some z
    /\ snd o = set_age (select_rename (raw_columns df) line) (VInt z).
Proof.
  intros H Ho. apply clean_Ok in H. destruct H as [df' [Hf Ha]].
  destruct (astype_age_In _ _ _ Ha Ho) as [r [z [Hr [Hz ->]]]].
  apply (filters_incl _ _ _ Hf) in Hr.
  destruct (select_rename_frame_In df r Hr) as [i [line [Hn [Hl Hs]]]].
  exists i, line, z. rewrite <- Hs. simpl fst. simpl snd.
  repeat split; assumption.
Qed.

(** X4: the conversion of line 223 changes nothing when it is applied
    to a frame it has already converted. *)
Theorem astype_age_idempotent {U : PyUnicode} (l out : list row) :
  astype_age l = Some out -> astype_age out = Some out.
Proof.
  revert out. induction l as [|a l IH]; simpl; intros out H.
  - now injection H as <-.
  - destruct (to_int64 (age (snd a))) as [z|] eqn:Ez; [|discriminate].
    destruct (astype_age l) as [l'|]; [|discriminate].
    injection H as <-. cbn [astype_age fst snd].
    change (age (set_age (snd a) (VInt z))) with (VInt z).
    rewrite (to_int64_int _ _ Ez), (IH l' eq_refl).
    now rewrite set_age_twice.
Qed.

(** X5: the columns are taken by name.  Two chunks with the same first
    label whose lines agree, one by one, on the thirteen selected
    columns give the same batch or the same exception, whatever the
    order of their columns and whatever other columns they have.  For
    the chunk without lines of a file that has only its header, where
    there is no line to agree on, the two files must both have or both
    lack the registration date column. *)
Theorem clean_reads_columns_by_name {U : PyUnicode} (df1 df2 : raw_frame) :
  index_start df1 = index_start df2 ->
  Forall2 (fun l1 l2 => forall c, In c columns ->
             raw_get (raw_columns df1) l1 c = raw_get (raw_columns df2) l2 c)
          (raw_values df1) (raw_values df2) ->
  (raw_values df1 = [] ->
   has_column "fecha_apertura" (raw_columns df1)
   = has_column "fecha_apertura" (raw_columns df2)) ->
  clean df1 = clean df2.
Proof.
  intros Hs Hv Hempty.
  assert (Hrecs : map (select_rename (raw_columns df1)) (raw_values df1)
                  = map (select_rename (raw_columns df2)) (raw_values df2)).
  { clear Hempty. induction Hv as [|l1 l2 v1 v2 Hl Hv IH]; simpl; [reflexivity|].
    now rewrite IH, (select_rename_by_name _ _ _ _ Hl). }
  assert (Hframe : select_rename_frame df1 = select_rename_frame df2).
  { unfold select_rename_frame. rewrite <- Hrecs, <- Hs.
    destruct (raw_values df1) as [|l ls] eqn:E; simpl; [|reflexivity].
    now rewrite (Hempty eq_refl). }
  unfold clean. now rewrite Hframe.
Qed.

(** X6: in a chunk whose registration dates are texts or missing, with
    at least one text, the year filter never raises: the chunk is
    appended, or the age conversion is what fails. *)
Theorem text_dates_never_attribute_error {U : PyUnicode} (table : list case_record) (df : raw_frame) :
  text_dates df = true ->
  (exists batch, Etl.load_chunk table df = Ok (table ++ batch)%list)
  \/ Etl.load_chunk table df = Raise ConversionError.
Proof.
  intros H. apply text_dates_available, filters_available in H.
  destruct H as [df' Hf]. unfold Etl.load_chunk, clean. rewrite Hf.
  destruct (astype_age (rows df')) as [l|]; [left | now right].
  exists (map snd l). reflexivity.
Qed.

(** ** More on the cleanup statement *)

Section CleanupMore.
Import Cleanup.

Lemma sql_eq_sym (a b : cell) : sql_eq a b = sql_eq b a.
Proof.
  unfold sql_eq. rewrite (cell_eqb_sym a b).
  destruct (isna a), (isna b); reflexivity.
Qed.

Lemma sql_eq_cell (a b : cell) : sql_eq a b = true -> cell_eqb a b = true.
Proof.
  unfold sql_eq. intros H. apply andb_true_iff in H. tauto.
Qed.

Lemma sql_eq_trans (a b c : cell) :
  sql_eq a b = true -> sql_eq b c = true -> sql_eq a c = true.
Proof.
  intros Hab Hbc.
  assert (Hc : isna c = false).
  { unfold sql_eq in Hbc. destruct (isna c); [|reflexivity].
    simpl in Hbc. now rewrite andb_false_r in Hbc. }
  rewrite (sql_eq_cell_eqb _ _ Hc).
  apply cell_eqb_trans with b; now apply sql_eq_cell.
Qed.

Lemma kept_unique (t0 l : list db_row) :
  (forall x, In x l -> In x t0) ->
  NoDup (map covid_case_id l) ->
  unique_identifiers (filter (fun a => negb (duplicate_not_least t0 a)) l).
Proof.
  unfold unique_identifiers.
  induction l as [|a l IH]; simpl; intros Hsub Hnd; [constructor|].
  inversion Hnd as [|? ? Hnotin Hnd']; subst.
  assert (IH' := IH (fun x Hx => Hsub x (or_intror Hx)) Hnd').
  destruct (duplicate_not_least t0 a) eqn:Ea; simpl; [exact IH'|].
  constructor; [|exact IH'].
  apply Forall_forall. intros x Hx. apply filter_In in Hx.
  destruct Hx as [Hxl Hx]. apply negb_true_iff in Hx.
  destruct (sql_eq (csv_id a) (csv_id x)) eqn:Eax; [|reflexivity].
  exfalso. apply Hnotin.
  assert (Hat : In a t0) by (apply Hsub; now left).
  assert (Hxt : In x t0) by (apply Hsub; now right).
  pose proof (proj1 (duplicate_not_least_false t0 a Hat) Ea x Hxt) as H1.
  pose proof (proj1 (duplicate_not_least_false t0 x Hxt) Hx a Hat) as H2.
  rewrite sql_eq_sym in H1. specialize (H1 Eax). specialize (H2 Eax).
  assert (E : covid_case_id a = covid_case_id x) by lia.
  rewrite E. now apply in_map.
Qed.

Lemma unique_fixed (t : list db_row) :
  unique_identifiers t -> delete_duplicates t = t.
Proof.
  intros Hu. rewrite delete_duplicates_filter.
  apply forallb_filter_id, forallb_forall. intros a Ha.
  apply negb_true_iff. apply (duplicate_not_least_false t a Ha).
  intros r Hr Hra.
  destruct (ForallOrdPairs_In Hu a r Ha Hr) as [->|[H|H]].
  - lia.
  - rewrite sql_eq_sym in H. congruence.
  - congruence.
Qed.

Lemma store_In (keys : list Z) (recs : list case_record) (x : db_row) :
  In x (store keys recs) -> In (fields x) recs.
Proof.
  unfold store. intros H. apply in_map_iff in H.
  destruct H as [[k r] [<- H]]. simpl. now apply in_combine_r in H.
Qed.

Lemma store_unique (keys : list Z) (batch : list row) :
  distinct_ids batch -> unique_identifiers (store keys (map snd batch)).
Proof.
  unfold distinct_ids, unique_identifiers. intros Hd. revert keys.
  induction Hd as [|a l Ha Hl IH]; intros keys.
  - destruct keys; constructor.
  - destruct keys as [|k keys]; [constructor|].
    unfold store. simpl. constructor; [|apply IH].
    apply Forall_forall. intros x Hx. apply store_In in Hx.
    apply in_map_iff in Hx. destruct Hx as [r [Hr Hin]].
    rewrite Forall_forall in Ha. specialize (Ha r Hin).
    unfold csv_id. simpl. rewrite <- Hr.
    destruct (sql_eq _ _) eqn:E; [|reflexivity].
    apply sql_eq_cell in E. congruence.
Qed.

End CleanupMore.

(** X7: when the keys of the table are all different, no identifier is
    on two rows once the statement has run. *)
Theorem cleanup_leaves_unique_identifiers (t : list Cleanup.db_row) :
  NoDup (map Cleanup.covid_case_id t) ->
  unique_identifiers (Cleanup.delete_duplicates t).
Proof.
  intros Hnd. rewrite delete_duplicates_filter.
  now apply kept_unique.
Qed.

Lemma cleanup_leaves_unique_identifiers_witness :
  NoDup (map Cleanup.covid_case_id keyed_twice)
  /\ unique_identifiers (Cleanup.delete_duplicates keyed_twice).
Proof.
  assert (H : NoDup (map Cleanup.covid_case_id keyed_twice)).
  { simpl. repeat constructor; simpl; intros H;
      repeat (destruct H as [H|H]; [discriminate|]); exact H. }
  split; [exact H | exact (cleanup_leaves_unique_identifiers keyed_twice H)].
Defined.

(** X8: the statement loses no identifier.  A row whose identifier is
    NULL stays; for every other row, a row with the same identifier and
    a key that is not greater is still there afterwards. *)
Theorem cleanup_keeps_every_identifier (t : list Cleanup.db_row) (a : Cleanup.db_row) :
  In a t ->
  (isna (Cleanup.csv_id a) = true -> In a (Cleanup.delete_duplicates t))
  /\ (isna (Cleanup.csv_id a) = false ->
      exists a',
        In a' (Cleanup.delete_duplicates t)
        /\ Cleanup.sql_eq (Cleanup.csv_id a') (Cleanup.csv_id a) = true
        /\ Cleanup.covid_case_id a' <= Cleanup.covid_case_id a).
Proof.
  intros Hin. rewrite delete_duplicates_filter. split; intros Hna.
  - apply filter_In. split; [exact Hin|]. apply negb_true_iff.
    apply (duplicate_not_least_false t a Hin). intros r _ Hr.
    now rewrite (sql_eq_null _ _ Hna) in Hr.
  - set (g := Cleanup.same_id_rows a t).
    assert (Ha : In a g).
    { apply filter_In. split; [exact Hin|].
      rewrite (sql_eq_cell_eqb _ _ Hna). apply cell_eqb_refl. }
    destruct (min_id_le (Cleanup.covid_case_id a) g) as [Hle Hall].
    assert (Hm : exists a', In a' g
                   /\ Cleanup.min_id (Cleanup.covid_case_id a) g
                      = Cleanup.covid_case_id a').
    { destruct (min_id_attained (Cleanup.covid_case_id a) g) as [E|E]; eauto. }
    destruct Hm as [a' [Ha' Em]]. exists a'.
    pose proof Ha' as Hf. apply filter_In in Hf. destruct Hf as [Ht' Ha'a].
    split; [|split; [exact Ha'a | lia]].
    apply filter_In. split; [exact Ht'|]. apply negb_true_iff.
    apply (duplicate_not_least_false t a' Ht'). intros r Hr Hra'.
    assert (Hrg : In r g).
    { apply filter_In. split; [exact Hr|].
      now apply sql_eq_trans with (Cleanup.csv_id a'). }
    rewrite Forall_forall in Hall. specialize (Hall r Hrg). lia.
Qed.

Lemma cleanup_keeps_every_identifier_witness :
  In (stored 13 "A") keyed_twice
  /\ (isna (Cleanup.csv_id (stored 13 "A")) = true ->
      In (stored 13 "A") (Cleanup.delete_duplicates keyed_twice))
  /\ (isna (Cleanup.csv_id (stored 13 "A")) = false ->
      exists a',
        In a' (Cleanup.delete_duplicates keyed_twice)
        /\ Cleanup.sql_eq (Cleanup.csv_id a') (Cleanup.csv_id (stored 13 "A")) = true
        /\ Cleanup.covid_case_id a' <= Cleanup.covid_case_id (stored 13 "A")).
Proof.
  assert (H : In (stored 13 "A") keyed_twice) by (simpl; tauto).
  split; [exact H | exact (cleanup_keeps_every_identifier keyed_twice _ H)].
Defined.

(** X9: on a table in which no identifier is on two rows the statement
    removes nothing. *)
Theorem cleanup_keeps_unique_table (t : list Cleanup.db_row) :
  unique_identifiers t -> Cleanup.delete_duplicates t = t.
Proof.
  apply unique_fixed.
Qed.

Lemma cleanup_keeps_unique_table_witness :
  unique_identifiers [stored 10 "A"; stored 12 "B"]
  /\ Cleanup.delete_duplicates [stored 10 "A"; stored 12 "B"]
     = [stored 10 "A"; stored 12 "B"].
Proof.
  assert (H : unique_identifiers [stored 10 "A"; stored 12 "B"]).
  { unfold unique_identifiers. repeat constructor. }
  split; [exact H | exact (cleanup_keeps_unique_table _ H)].
Defined.

(** X10: what one chunk has loaded needs no cleanup.  The batch of a
    chunk, stored under any keys, is left as it is by the statement:
    the duplicates it removes come from different chunks. *)
Theorem single_batch_needs_no_cleanup {U : PyUnicode}
    (df : raw_frame) (batch : list row) (keys : list Z) :
  clean df = Ok batch ->
  Cleanup.delete_duplicates (store keys (map snd batch))
  = store keys (map snd batch).
Proof.
  intros H. apply clean_Ok in H. destruct H as [df' [Hf Ha]].
  apply unique_fixed, store_unique.
  eapply astype_age_distinct; [exact Ha|].
  now apply filters_distinct with (select_rename_frame df).
Qed.

(** ** The reference tables *)

Section ReferenceFacts.

Lemma distinct_keys_map {A : Type} (key : A -> cell) (l : list A) :
  ForallOrdPairs (fun a b => cell_eqb (key a) (key b) = false) l ->
  ForallOrdPairs (fun a b => cell_eqb a b = false) (map key l).
Proof.
  induction 1 as [|a l Ha Hl IH]; simpl; constructor; [|exact IH].
  apply Forall_forall. intros c Hc. apply in_map_iff in Hc.
  destruct Hc as [x [<- Hx]]. rewrite Forall_forall in Ha. now apply Ha.
Qed.

Lemma assign_name_ids (n : Z) (name : string) (l : list StateTable.state_record) :
  map StateTable.state_id (StateTable.assign_name n name l)
  = map StateTable.state_id l.
Proof.
  unfold StateTable.assign_name. rewrite map_map. apply map_ext.
  intros r. now destruct (eq_scalar n (StateTable.state_id r)).
Qed.

Lemma eq_scalar_apart (m n : Z) (c : cell) :
  m <> n -> eq_scalar m c = true -> eq_scalar n c = false.
Proof.
  intros Hmn. destruct c; simpl; try discriminate.
  - intros H. apply Z.eqb_eq in H. subst. now apply Z.eqb_neq.
  - intros H. destruct (Qeq_bool q (inject_Z n)) eqn:E; [|reflexivity].
    exfalso. apply Hmn. apply Z.eqb_eq. rewrite <- inject_Z_eqb.
    apply Qeq_bool_trans with q; [|exact E]. now apply Qeq_bool_sym.
Qed.

Lemma state_ids (df : raw_frame) :
  map StateTable.state_id (StateTable.transform df)
  = map StateTable.state_id
      (drop_duplicates_by StateTable.state_id []
         (filter (fun r => negb (isna (StateTable.state_id r)))
            (map (StateTable.select_rename (raw_columns df)) (raw_values df)))).
Proof.
  unfold StateTable.transform. now rewrite !assign_name_ids.
Qed.

End ReferenceFacts.

(** X11: the rows written to [state] have a state_id each, no two the
    same, and every state_id of provincias.csv that is not missing is
    among them. *)
Theorem state_ids_present_unique_complete (df : raw_frame) :
  Forall (fun c => isna c = false) (map StateTable.state_id (StateTable.transform df))
  /\ ForallOrdPairs (fun a b => cell_eqb a b = false)
       (map StateTable.state_id (StateTable.transform df))
  /\ forall line,
       In line (raw_values df) ->
       isna (raw_get (raw_columns df) line "id") = false ->
       exists c, In c (map StateTable.state_id (StateTable.transform df))
                 /\ cell_eqb (raw_get (raw_columns df) line "id") c = true.
Proof.
  rewrite state_ids.
  set (d1 := filter (fun r => negb (isna (StateTable.state_id r)))
               (map (StateTable.select_rename (raw_columns df)) (raw_values df))).
  split; [|split].
  - apply Forall_forall. intros c Hc. apply in_map_iff in Hc.
    destruct Hc as [r [<- Hr]].
    apply (subseq_In _ _ _ (dedup_by_subseq StateTable.state_id [] d1)) in Hr.
    apply filter_In in Hr. now apply negb_true_iff.
  - apply distinct_keys_map, dedup_by_distinct.
  - intros line Hline Hna.
    assert (Hin : In (StateTable.select_rename (raw_columns df) line) d1).
    { apply filter_In. split; [now apply in_map|]. simpl. now rewrite Hna. }
    destruct (dedup_by_covers StateTable.state_id [] d1 _ Hin) as [H|[r' [Hr' He]]];
      [discriminate|].
    exists (StateTable.state_id r'). split; [now apply in_map | exact He].
Qed.

(** X12: in the rows written to [state], state 94 is called Tierra del
    Fuego and state 2 is called CABA; every other row is a line of the
    file under the new column names, its name untouched. *)
Theorem state_names_replaced (df : raw_frame) (r : StateTable.state_record) :
  In r (StateTable.transform df) ->
  (eq_scalar 94 (StateTable.state_id r) = true ->
     StateTable.state_name r = VStr "Tierra del Fuego")
  /\ (eq_scalar 2 (StateTable.state_id r) = true ->
        StateTable.state_name r = VStr "CABA")
  /\ (eq_scalar 94 (StateTable.state_id r) = false ->
      eq_scalar 2 (StateTable.state_id r) = false ->
      exists line, In line (raw_values df)
                   /\ r = StateTable.select_rename (raw_columns df) line).
Proof.
  unfold StateTable.transform, StateTable.assign_name. intros H.
  apply in_map_iff in H. destruct H as [r1 [H1 H]].
  apply in_map_iff in H. destruct H as [r0 [H0 H]].
  apply (subseq_In _ _ _ (dedup_by_subseq StateTable.state_id [] _)) in H.
  apply filter_In in H. destruct H as [H _].
  apply in_map_iff in H. destruct H as [line [Hline Hin]].
  assert (Hne : (94 <> 2)%Z) by lia.
  destruct (eq_scalar 94 (StateTable.state_id r0)) eqn:E94.
  - pose proof (eq_scalar_apart 94 2 _ Hne E94) as E2.
    subst r1. simpl in H1. rewrite E2 in H1. subst r. simpl.
    rewrite E94, E2. repeat split; try reflexivity; discriminate.
  - subst r1. destruct (eq_scalar 2 (StateTable.state_id r0)) eqn:E2.
    + subst r. simpl. rewrite E94, E2. repeat split; try reflexivity; discriminate.
    + subst r. rewrite E94, E2. repeat split; try discriminate.
      intros _ _. exists line. auto.
Qed.

Lemma state_names_replaced_witness :
  In {| StateTable.state_id := VInt 94; StateTable.state_name := VStr "Tierra del Fuego" |}
     (StateTable.transform
        {| raw_columns := [ "id"; "nombre" ]; index_start := 0%N;
           raw_values := [ [ VInt 6; VStr "Buenos Aires" ];
                           [ VInt 94; VStr "Tierra del Fuego, Antartida" ];
                           [ VInt 6; VStr "Bs As" ] ] |})
  /\ StateTable.transform
        {| raw_columns := [ "id"; "nombre" ]; index_start := 0%N;
           raw_values := [ [ VInt 6; VStr "Buenos Aires" ];
                           [ VInt 94; VStr "Tierra del Fuego, Antartida" ];
                           [ VInt 6; VStr "Bs As" ] ] |}
     = [ {| StateTable.state_id := VInt 6; StateTable.state_name := VStr "Buenos Aires" |};
         {| StateTable.state_id := VInt 94;
            StateTable.state_name := VStr "Tierra del Fuego" |} ]
  /\ (eq_scalar 94 (VInt 94) = true -> VStr "Tierra del Fuego" = VStr "Tierra del Fuego").
Proof.
  assert (H : In {| StateTable.state_id := VInt 94;
                    StateTable.state_name := VStr "Tierra del Fuego" |}
                (StateTable.transform
                   {| raw_columns := [ "id"; "nombre" ]; index_start := 0%N;
                      raw_values := [ [ VInt 6; VStr "Buenos Aires" ];
                                      [ VInt 94; VStr "Tierra del Fuego, Antartida" ];
                                      [ VInt 6; VStr "Bs As" ] ] |}))
    by (simpl; tauto).
  split; [exact H|]. split; [reflexivity|].
  exact (proj1 (state_names_replaced _ _ H)).
Defined.

(** X13: the rows written to [department] are lines of departamentos.csv
    under the new column names, unchanged and in file order; each has a
    department_id, no two the same, and every department_id of the file
    that is not missing is among them.  The state_id of a row is not
    looked at. *)
Theorem department_rows_unchanged_unique_complete (df : raw_frame) :
  subseq (DepartmentTable.transform df)
         (map (DepartmentTable.select_rename (raw_columns df)) (raw_values df))
  /\ Forall (fun r => isna (DepartmentTable.department_id r) = false)
       (DepartmentTable.transform df)
  /\ ForallOrdPairs
       (fun a b => cell_eqb (DepartmentTable.department_id a)
                            (DepartmentTable.department_id b) = false)
       (DepartmentTable.transform df)
  /\ forall line,
       In line (raw_values df) ->
       isna (raw_get (raw_columns df) line "id") = false ->
       exists r, In r (DepartmentTable.transform df)
                 /\ cell_eqb (raw_get (raw_columns df) line "id")
                             (DepartmentTable.department_id r) = true.
Proof.
  unfold DepartmentTable.transform.
  set (d1 := filter (fun r => negb (isna (DepartmentTable.department_id r)))
               (map (DepartmentTable.select_rename (raw_columns df)) (raw_values df))).
  pose proof (dedup_by_subseq DepartmentTable.department_id [] d1) as Hs.
  split; [|split; [|split]].
  - eapply subseq_trans; [exact Hs | apply subseq_filter].
  - apply Forall_forall. intros r Hr. apply (subseq_In _ _ _ Hs) in Hr.
    apply filter_In in Hr. now apply negb_true_iff.
  - apply dedup_by_distinct.
  - intros line Hline Hna.
    assert (Hin : In (DepartmentTable.select_rename (raw_columns df) line) d1).
    { apply filter_In. split; [now apply in_map|]. simpl. now rewrite Hna. }
    destruct (dedup_by_covers DepartmentTable.department_id [] d1 _ Hin)
      as [H|[r' [Hr' He]]]; [discriminate|].
    exists r'. auto.
Qed.

(** ** The downloads *)

(** X14: [download_from_aws] returns True exactly when the download
    ends normally and False exactly when it raises FileNotFoundError;
    whatever else the download raises, the caller gets a NameError for
    NoCredentialsError and never the exception itself. *)
Theorem download_outcomes (o : Download.outcome unit) :
  (Download.download_from_aws o = Download.Returns true
     <-> o = Download.Returns tt)
  /\ (Download.download_from_aws o = Download.Returns false
        <-> o = Download.Raises Download.FileNotFoundError)
  /\ (forall e, Download.download_from_aws o = Download.Raises e ->
                e = Download.NameError "NoCredentialsError"
                /\ exists e0, o = Download.Raises e0
                              /\ e0 <> Download.FileNotFoundError).
Proof.
  destruct o as [[]|e0].
  - simpl. split; [split; auto|]. split; [split; discriminate|].
    intros e H. discriminate.
  - destruct e0; simpl;
      (split; [split; discriminate|]);
      (split; [split; (discriminate || auto)|]);
      intros e H; try discriminate;
      injection H as <-; (split; [reflexivity|]);
      eexists; (split; [reflexivity | discriminate]).
Qed.

(** X15: the three downloads.  The value [download_from_aws] returns is
    never looked at: the script gets past the downloads exactly when
    each of them ends normally or with FileNotFoundError, and then all
    three objects have been asked for, in the order of the script.  When
    it does not, it ends with the NameError, and the objects asked for
    are the first ones of the list. *)
Theorem downloads_ignore_results (s3 : string -> Download.outcome unit) :
  (snd (Script.download_phase s3) = Download.Returns tt
     <-> Forall (fun f => s3 f = Download.Returns tt
                          \/ s3 f = Download.Raises Download.FileNotFoundError)
                Script.files)
  /\ (snd (Script.download_phase s3) = Download.Returns tt ->
      fst (Script.download_phase s3) = Script.files)
  /\ (forall e, snd (Script.download_phase s3) = Download.Raises e ->
                e = Download.NameError "NoCredentialsError"
                /\ exists later, Script.files = (fst (Script.download_phase s3) ++ later)%list).
Proof.
  unfold Script.download_phase. generalize Script.files as fs.
  induction fs as [|f fs [IH1 [IH2 IH3]]]; simpl.
  - repeat split; auto; discriminate.
  - destruct (download_outcomes (s3 f)) as [Ht [Hf He]].
    destruct (Download.download_from_aws (s3 f)) as [b|e0] eqn:Ed.
    + assert (Hok : s3 f = Download.Returns tt
                    \/ s3 f = Download.Raises Download.FileNotFoundError).
      { destruct b; [left; now apply Ht | right; now apply Hf]. }
      destruct (Script.download_each s3 fs) as [asked o] eqn:Es. simpl in *.
      split; [|split].
      * rewrite IH1. split.
        -- intros H. constructor; assumption.
        -- intros H. now inversion H.
      * intros H. now rewrite (IH2 H).
      * intros e H. destruct (IH3 e H) as [-> [later ->]].
        split; [reflexivity|]. now exists later.
    + simpl. destruct (He e0 eq_refl) as [-> [e1 [Hs Hne]]].
      split; [|split].
      * split; [discriminate|]. intros H. inversion H as [|? ? [Hr|Hr] _]; subst;
          rewrite Hs in Hr; [discriminate | injection Hr as ->; congruence].
      * discriminate.
      * intros e [= <-]. split; [reflexivity|]. now exists fs.
Qed.

(** ** The order of the filters *)

Section OrderFacts.

(** The first row with a given identifier is at one place only. *)
Lemma first_occurrence_unique (l pre pre' post post' : list row) (r r' : row) :
  l = (pre ++ r :: post)%list ->
  l = (pre' ++ r' :: post')%list ->
  Forall (fun x => cell_eqb (covid_case_csv_id (snd x))
                            (covid_case_csv_id (snd r)) = false) pre ->
  Forall (fun x => cell_eqb (covid_case_csv_id (snd x))
                            (covid_case_csv_id (snd r')) = false) pre' ->
  cell_eqb (covid_case_csv_id (snd r')) (covid_case_csv_id (snd r)) = true ->
  r = r'.
Proof.
  intros -> . revert pre'.
  induction pre as [|a pre IH]; intros [|a' pre'] Heq Hp Hp' He; simpl in Heq.
  - now injection Heq.
  - injection Heq as <- _. inversion Hp' as [|? ? Ha _]; subst.
    rewrite cell_eqb_sym in He. congruence.
  - injection Heq as -> _. inversion Hp as [|? ? Ha _]; subst. congruence.
  - injection Heq as <- Heq. inversion Hp; inversion Hp'; subst.
    now apply (IH pre').
Qed.

End OrderFacts.

(** X16: the duplicates go before the rows of state 0 and the rows
    without age.  When the first row of an identifier among the rows of
    the target year is of state 0 or has no age, no row with that
    identifier is in the batch, whatever the later rows with that
    identifier are like. *)
Theorem first_row_shadows_later_rows {U : PyUnicode}
    (df : raw_frame) (batch pre post : list row) (r : row) :
  clean df = Ok batch ->
  year_filtered (select_rename_frame df) = (pre ++ r :: post)%list ->
  Forall (fun x => cell_eqb (covid_case_csv_id (snd x))
                            (covid_case_csv_id (snd r)) = false) pre ->
  eq_zero (registration_state_id (snd r)) = true \/ isna (age (snd r)) = true ->
  Forall (fun o => cell_eqb (covid_case_csv_id (snd o))
                            (covid_case_csv_id (snd r)) = false) batch.
Proof.
  intros H Hy Hpre Hbad. apply clean_Ok in H. destruct H as [df' [Hf Ha]].
  apply Forall_forall. intros o Ho.
  destruct (astype_age_In _ _ _ Ha Ho) as [r' [z [Hr' [_ ->]]]]. simpl.
  destruct (cell_eqb (covid_case_csv_id (snd r')) (covid_case_csv_id (snd r))) eqn:E;
    [|reflexivity].
  exfalso.
  destruct (filters_sound _ _ _ Hf Hr') as [Hd [_ [_ [Hz Hage]]]].
  destruct (dedup_first _ _ _ Hd) as [pre' [post' [Hy' Hpre']]].
  assert (r = r') by (eapply first_occurrence_unique; eauto).
  subst r'. destruct Hbad; congruence.
Qed.

(** ** The cleanup under serial keys *)

Section SerialKeys.
Import Cleanup.

Lemma sorted_split (pre l : list db_row) (a : db_row) :
  StronglySorted Z.lt (map covid_case_id (pre ++ a :: l)) ->
  Forall (fun r => covid_case_id r < covid_case_id a) pre
  /\ Forall (fun r => covid_case_id a < covid_case_id r) l.
Proof.
  induction pre as [|p pre IH]; simpl; intros H; inversion H as [|? ? Hs Hall]; subst.
  - split; [constructor|]. rewrite Forall_forall in *. intros r Hr.
    apply Hall. now apply in_map.
  - destruct (IH Hs) as [H1 H2]. split; [|exact H2].
    constructor; [|exact H1]. rewrite Forall_forall in Hall. apply Hall.
    apply in_map_iff. exists a. split; [reflexivity|].
    apply in_or_app. right. now left.
Qed.

Lemma seen_app (c : cell) (l1 l2 : list cell) :
  existsb (cell_eqb c) (l1 ++ l2) = existsb (cell_eqb c) l1 || existsb (cell_eqb c) l2.
Proof. apply existsb_app. Qed.

Lemma serial_keep_first (t l pre : list db_row) (seen : list cell) :
  t = (pre ++ l)%list ->
  StronglySorted Z.lt (map covid_case_id t) ->
  Forall (fun r => isna (csv_id r) = false) t ->
  (forall c, existsb (cell_eqb c) seen = existsb (cell_eqb c) (map csv_id pre)) ->
  filter (fun a => negb (duplicate_not_least t a)) l
  = drop_duplicates_by csv_id seen l.
Proof.
  intros Ht Hs Hna. revert pre seen Ht.
  induction l as [|a l IH]; intros pre seen Ht Hseen; simpl; [reflexivity|].
  assert (Hat : In a t) by (rewrite Ht; apply in_or_app; right; now left).
  assert (Hnaa : isna (csv_id a) = false).
  { rewrite Forall_forall in Hna. now apply Hna. }
  pose proof Hs as Hs'. rewrite Ht in Hs'. apply sorted_split in Hs'.
  destruct Hs' as [Hlt Hgt]. rewrite Forall_forall in Hlt, Hgt.
  assert (Hnext : t = ((pre ++ [a]) ++ l)%list) by (rewrite Ht, <- app_assoc; reflexivity).
  destruct (existsb (cell_eqb (csv_id a)) seen) eqn:E.
  - (* an earlier row has the identifier: the row goes *)
    assert (Hd : duplicate_not_least t a = true).
    { destruct (duplicate_not_least t a) eqn:Hd; [reflexivity|]. exfalso.
      rewrite Hseen in E. apply existsb_exists in E. destruct E as [c [Hc Hac]].
      apply in_map_iff in Hc. destruct Hc as [r [<- Hr]].
      assert (Hrt : In r t) by (rewrite Ht; apply in_or_app; now left).
      pose proof (proj1 (duplicate_not_least_false t a Hat) Hd r Hrt) as Hle.
      rewrite (sql_eq_cell_eqb _ _ Hnaa), cell_eqb_sym in Hle.
      specialize (Hle Hac). specialize (Hlt r Hr). lia. }
    rewrite Hd. simpl. apply (IH (pre ++ [a])%list seen Hnext).
    intros c. rewrite map_app, seen_app. simpl. rewrite orb_false_r, <- Hseen.
    destruct (cell_eqb c (csv_id a)) eqn:Eca; [|now rewrite orb_false_r].
    rewrite (seen_congr _ _ seen Eca), E. reflexivity.
  - (* no earlier row has it: the row stays *)
    assert (Hd : duplicate_not_least t a = false).
    { apply (duplicate_not_least_false t a Hat). intros r Hr Hra.
      rewrite Ht in Hr. apply in_app_or in Hr. destruct Hr as [Hr|[->|Hr]].
      - exfalso. rewrite Hseen in E.
        assert (existsb (cell_eqb (csv_id a)) (map csv_id pre) = true); [|congruence].
        apply existsb_exists. exists (csv_id r). split; [now apply in_map|].
        rewrite cell_eqb_sym. now apply sql_eq_cell.
      - lia.
      - specialize (Hgt r Hr). lia. }
    rewrite Hd. simpl. f_equal. apply (IH (pre ++ [a])%list (csv_id a :: seen) Hnext).
    intros c. rewrite map_app, seen_app. simpl. rewrite orb_false_r, <- Hseen.
    apply orb_comm.
Qed.

End SerialKeys.

(** X17: under serial keys the statement is a [drop_duplicates] over the
    whole table.  When the keys grow from row to row and no identifier
    is NULL, the rows it leaves are the rows that the pandas call with
    its default keep='first' would leave. *)
Theorem cleanup_is_keep_first_under_serial_keys (t : list Cleanup.db_row) :
  StronglySorted Z.lt (map Cleanup.covid_case_id t) ->
  Forall (fun r => isna (Cleanup.csv_id r) = false) t ->
  Cleanup.delete_duplicates t = drop_duplicates_by Cleanup.csv_id [] t.
Proof.
  intros Hs Hna. rewrite delete_duplicates_filter.
  apply (serial_keep_first t t [] []); auto.
Qed.

Lemma cleanup_is_keep_first_under_serial_keys_witness :
  StronglySorted Z.lt (map Cleanup.covid_case_id keyed_twice)
  /\ Forall (fun r => isna (Cleanup.csv_id r) = false) keyed_twice
  /\ Cleanup.delete_duplicates keyed_twice
     = drop_duplicates_by Cleanup.csv_id [] keyed_twice.
Proof.
  assert (S : StronglySorted Z.lt (map Cleanup.covid_case_id keyed_twice)).
  { simpl. repeat constructor. }
  assert (N : Forall (fun r => isna (Cleanup.csv_id r) = false) keyed_twice).
  { repeat constructor. }
  split; [exact S|]. split; [exact N|].
  exact (cleanup_is_keep_first_under_serial_keys keyed_twice S N).
Defined.

(** * The sample chunks, evaluated *)

Section SampleRuns.
#[local] Existing Instance sample_interpreter.

(** C1: the test of line 217 compares with the number 0.  In a chunk
    whose state column is read as text the line of state 0 passes it,
    and its record is appended with registration state 0. *)
Theorem text_zero_state_is_appended :
  raw_get (raw_columns text_states)
          (line (VInt 1) (VInt 30) (VStr "2022-01-01") (VStr "0"))
          "carga_provincia_id" = VStr "0"
  /\ In (line (VInt 1) (VInt 30) (VStr "2022-01-01") (VStr "0")) (raw_values text_states)
  /\ run [] [text_states]
     = ([rec (VInt 1) (VInt 30) (VStr "2022-01-01") (VStr "0")], None).
Proof.
  split; [reflexivity|]. split; [simpl; tauto | reflexivity].
Qed.

Lemma batch_identifiers_unique_first_kept_witness :
  clean repeated
  = Ok [ (0%N, rec (VInt 1) (VInt 45) (VStr "2022-01-01") (VInt 5));
         (1%N, rec (VInt 2) (VInt 20) (VStr "2022-01-02") (VInt 3)) ]
  /\ distinct_ids
       [ (0%N, rec (VInt 1) (VInt 45) (VStr "2022-01-01") (VInt 5));
         (1%N, rec (VInt 2) (VInt 20) (VStr "2022-01-02") (VInt 3)) ]
  /\ (forall o,
        In o [ (0%N, rec (VInt 1) (VInt 45) (VStr "2022-01-01") (VInt 5));
               (1%N, rec (VInt 2) (VInt 20) (VStr "2022-01-02") (VInt 3)) ] ->
        exists pre r post,
          year_filtered (select_rename_frame repeated) = (pre ++ r :: post)%list
          /\ Forall (fun x => cell_eqb (covid_case_csv_id (snd x))
                                       (covid_case_csv_id (snd r)) = false) pre
          /\ fst o = fst r
          /\ snd o = set_age (snd r) (age (snd o)))
  /\ (forall pre r post,
        year_filtered (select_rename_frame repeated) = (pre ++ r :: post)%list ->
        Forall (fun x => cell_eqb (covid_case_csv_id (snd x))
                                  (covid_case_csv_id (snd r)) = false) pre ->
        eq_zero (registration_state_id (snd r)) = false ->
        isna (age (snd r)) = false ->
        exists z,
          to_int64 (age (snd r)) = Some z
          /\ In (fst r, set_age (snd r) (VInt z))
                [ (0%N, rec (VInt 1) (VInt 45) (VStr "2022-01-01") (VInt 5));
                  (1%N, rec (VInt 2) (VInt 20) (VStr "2022-01-02") (VInt 3)) ]).
Proof.
  assert (H : clean repeated
              = Ok [ (0%N, rec (VInt 1) (VInt 45) (VStr "2022-01-01") (VInt 5));
                     (1%N, rec (VInt 2) (VInt 20) (VStr "2022-01-02") (VInt 3)) ])
    by reflexivity.
  split; [exact H | exact (batch_identifiers_unique_first_kept repeated _ H)].
Defined.





(** C6: in a chunk whose only row has no registration date the row is
    not dropped quietly as the steps say: the year filter raises. *)
Theorem undated_chunk_not_as_described :
  Etl.load_chunk [] undated = Raise AttributeError
  /\ Described.load_chunk [] undated = Ok [].
Proof.
  split; vm_compute; reflexivity.
Qed.

(** C9: every age of this chunk converts, and still the chunk is not
    appended; the year filter raises on its dates. *)
Theorem undated_chunk_raises_with_good_ages :
  (forall r, In r (Described.selected undated) -> to_int64 (age r) <> None)
  /\ Etl.load_chunk [] undated = Raise AttributeError.
Proof.
  split.
  - intros r [<-|[]]. discriminate.
  - vm_compute. reflexivity.
Qed.

Lemma load_chunk_follows_description_witness :
  str_available (select_rename_frame scenario) = true
  /\ Etl.load_chunk [] scenario = Described.load_chunk [] scenario.
Proof.
  assert (H : str_available (select_rename_frame scenario) = true) by reflexivity.
  split; [exact H | exact (load_chunk_follows_description [] scenario H)].
Defined.

Lemma dropped_rows_never_converted_witness :
  str_available (select_rename_frame scenario) = true
  /\ (forall r, In r (Described.filtered (Described.selected scenario)) ->
                to_int64 (age r) <> None)
  /\ (exists batch,
         Etl.load_chunk [] scenario = Ok ([] ++ batch)%list
         /\ Described.coerce_ages (Described.filtered (Described.selected scenario))
            = Some batch).
Proof.
  assert (H : str_available (select_rename_frame scenario) = true) by reflexivity.
  assert (A : forall r, In r (Described.filtered (Described.selected scenario)) ->
                        to_int64 (age r) <> None).
  { intros r [<-|[]]. discriminate. }
  split; [exact H|]. split; [exact A|].
  exact (proj1 (dropped_rows_never_converted [] scenario H A)).
Defined.

Lemma batch_keeps_file_order_witness :
  clean scenario
  = Ok [(0%N, rec (VInt 1) (VInt 45) (VStr "2022-01-01") (VInt 5))]
  /\ subseq (map fst [(0%N, rec (VInt 1) (VInt 45) (VStr "2022-01-01") (VInt 5))])
       (range_index (index_start scenario) (List.length (raw_values scenario)))
  /\ NoDup (map fst [(0%N, rec (VInt 1) (VInt 45) (VStr "2022-01-01") (VInt 5))])
  /\ (List.length [(0%N, rec (VInt 1) (VInt 45) (VStr "2022-01-01") (VInt 5))]
      <= List.length (raw_values scenario))%nat.
Proof.
  assert (H : clean scenario
              = Ok [(0%N, rec (VInt 1) (VInt 45) (VStr "2022-01-01") (VInt 5))])
    by reflexivity.
  split; [exact H | exact (batch_keeps_file_order scenario _ H)].
Defined.

Lemma batch_row_is_its_line_witness :
  clean scenario
  = Ok [(0%N, rec (VInt 1) (VInt 45) (VStr "2022-01-01") (VInt 5))]
  /\ In (0%N, rec (VInt 1) (VInt 45) (VStr "2022-01-01") (VInt 5))
        [(0%N, rec (VInt 1) (VInt 45) (VStr "2022-01-01") (VInt 5))]
  /\ exists i line z,
       nth_error (raw_values scenario) i = Some line
       /\ fst (0%N, rec (VInt 1) (VInt 45) (VStr "2022-01-01") (VInt 5))
          = (index_start scenario + N.of_nat i)%N
       /\ to_int64 (age (select_rename (raw_columns scenario) line)) = Some z
       /\ snd (0%N, rec (VInt 1) (VInt 45) (VStr "2022-01-01") (VInt 5))
          = set_age (select_rename (raw_columns scenario) line) (VInt z).
Proof.
  assert (H : clean scenario
              = Ok [(0%N, rec (VInt 1) (VInt 45) (VStr "2022-01-01") (VInt 5))])
    by reflexivity.
  assert (I : In (0%N, rec (VInt 1) (VInt 45) (VStr "2022-01-01") (VInt 5))
                 [(0%N, rec (VInt 1) (VInt 45) (VStr "2022-01-01") (VInt 5))])
    by (simpl; left; reflexivity).
  split; [exact H|]. split; [exact I|].
  exact (batch_row_is_its_line scenario _ _ H I).
Defined.

Lemma astype_age_idempotent_witness :
  astype_age [(0%N, rec (VInt 1) (VStr "45") (VStr "2022-01-01") (VInt 5));
              (1%N, rec (VInt 2) (VFloat (9 # 2)) (VStr "2022-01-02") (VInt 5))]
  = Some [(0%N, rec (VInt 1) (VInt 45) (VStr "2022-01-01") (VInt 5));
          (1%N, rec (VInt 2) (VInt 4) (VStr "2022-01-02") (VInt 5))]
  /\ astype_age [(0%N, rec (VInt 1) (VInt 45) (VStr "2022-01-01") (VInt 5));
                 (1%N, rec (VInt 2) (VInt 4) (VStr "2022-01-02") (VInt 5))]
     = Some [(0%N, rec (VInt 1) (VInt 45) (VStr "2022-01-01") (VInt 5));
             (1%N, rec (VInt 2) (VInt 4) (VStr "2022-01-02") (VInt 5))].
Proof.
  assert (H : astype_age
                [(0%N, rec (VInt 1) (VStr "45") (VStr "2022-01-01") (VInt 5));
                 (1%N, rec (VInt 2) (VFloat (9 # 2)) (VStr "2022-01-02") (VInt 5))]
              = Some [(0%N, rec (VInt 1) (VInt 45) (VStr "2022-01-01") (VInt 5));
                      (1%N, rec (VInt 2) (VInt 4) (VStr "2022-01-02") (VInt 5))])
    by reflexivity.
  split; [exact H | exact (astype_age_idempotent _ _ H)].
Defined.

Lemma clean_reads_columns_by_name_witness :
  index_start scenario = index_start scenario_reordered
  /\ Forall2 (fun l1 l2 => forall c, In c columns ->
                raw_get (raw_columns scenario) l1 c
                = raw_get (raw_columns scenario_reordered) l2 c)
             (raw_values scenario) (raw_values scenario_reordered)
  /\ (raw_values scenario = [] ->
      has_column "fecha_apertura" (raw_columns scenario)
      = has_column "fecha_apertura" (raw_columns scenario_reordered))
  /\ clean scenario = clean scenario_reordered.
Proof.
  assert (S : index_start scenario = index_start scenario_reordered) by reflexivity.
  assert (V : Forall2 (fun l1 l2 => forall c, In c columns ->
                         raw_get (raw_columns scenario) l1 c
                         = raw_get (raw_columns scenario_reordered) l2 c)
                      (raw_values scenario) (raw_values scenario_reordered)).
  { repeat constructor;
      intros c Hc; simpl in Hc;
      repeat (destruct Hc as [<-|Hc]; [reflexivity|]); destruct Hc. }
  assert (E : raw_values scenario = [] ->
              has_column "fecha_apertura" (raw_columns scenario)
              = has_column "fecha_apertura" (raw_columns scenario_reordered))
    by (intros _; reflexivity).
  split; [exact S|]. split; [exact V|]. split; [exact E|].
  exact (clean_reads_columns_by_name scenario scenario_reordered S V E).
Defined.

Lemma text_dates_never_attribute_error_witness :
  text_dates lettered = true
  /\ ((exists batch, Etl.load_chunk [] lettered = Ok ([] ++ batch)%list)
      \/ Etl.load_chunk [] lettered = Raise ConversionError).
Proof.
  assert (H : text_dates lettered = true) by reflexivity.
  split; [exact H | exact (text_dates_never_attribute_error [] lettered H)].
Defined.

Lemma single_batch_needs_no_cleanup_witness :
  clean fractional
  = Ok [ (0%N, rec (VInt 7) (VInt 4) (VStr "2022-03-01") (VInt 5));
         (1%N, rec (VInt 8) (VInt 45) (VStr "2022-03-02") (VInt 5)) ]
  /\ Cleanup.delete_duplicates
       (store [1; 2]
          (map snd [ (0%N, rec (VInt 7) (VInt 4) (VStr "2022-03-01") (VInt 5));
                     (1%N, rec (VInt 8) (VInt 45) (VStr "2022-03-02") (VInt 5)) ]))
     = store [1; 2]
         (map snd [ (0%N, rec (VInt 7) (VInt 4) (VStr "2022-03-01") (VInt 5));
                    (1%N, rec (VInt 8) (VInt 45) (VStr "2022-03-02") (VInt 5)) ]).
Proof.
  assert (H : clean fractional
              = Ok [ (0%N, rec (VInt 7) (VInt 4) (VStr "2022-03-01") (VInt 5));
                     (1%N, rec (VInt 8) (VInt 45) (VStr "2022-03-02") (VInt 5)) ])
    by reflexivity.
  split; [exact H | exact (single_batch_needs_no_cleanup fractional _ [1; 2] H)].
Defined.

Lemma first_row_shadows_later_rows_witness :
  clean shadowed = Ok [(2%N, rec (VInt 2) (VInt 50) (VStr "2022-01-03") (VInt 5))]
  /\ year_filtered (select_rename_frame shadowed)
     = ([] ++ (0%N, rec (VInt 1) (VInt 30) (VStr "2022-01-01") (VInt 0))
           :: [ (1%N, rec (VInt 1) (VInt 40) (VStr "2022-01-02") (VInt 5));
                (2%N, rec (VInt 2) (VInt 50) (VStr "2022-01-03") (VInt 5)) ])%list
  /\ Forall (fun o => cell_eqb (covid_case_csv_id (snd o)) (VInt 1) = false)
       [(2%N, rec (VInt 2) (VInt 50) (VStr "2022-01-03") (VInt 5))].
Proof.
  assert (H : clean shadowed
              = Ok [(2%N, rec (VInt 2) (VInt 50) (VStr "2022-01-03") (VInt 5))])
    by reflexivity.
  assert (Y : year_filtered (select_rename_frame shadowed)
              = ([] ++ (0%N, rec (VInt 1) (VInt 30) (VStr "2022-01-01") (VInt 0))
                    :: [ (1%N, rec (VInt 1) (VInt 40) (VStr "2022-01-02") (VInt 5));
                         (2%N, rec (VInt 2) (VInt 50) (VStr "2022-01-03") (VInt 5)) ])%list)
    by reflexivity.
  split; [exact H|]. split; [exact Y|].
  exact (first_row_shadows_later_rows shadowed _ [] _ _ H Y
           (Forall_nil _) (or_introl eq_refl)).
Defined.

(** An age of a uint64 column is wrapped around and loaded. *)
Example unsigned_age_is_wrapped :
  run [] [unsigned] = ([rec (VInt 7) (VInt (- 2 ^ 63)) (VStr "2022-03-01") (VInt 5)], None).
Proof. vm_compute. reflexivity. Qed.

(** The chunk without lines of a file that has only its header passes
    through the loop body when the file has the registration date
    column, and stops at the year filter when it has not. *)
Example header_only_file :
  run [] [chunk 0%N []] = ([], None)
  /\ run [] [ {| raw_columns := [ "id_evento_caso"; "edad" ];
                 index_start := 0%N; raw_values := [] |} ]
     = ([], Some AttributeError).
Proof. split; reflexivity. Qed.

End SampleRuns.
